(** * official/transformer/v2/misc.py

    A shallow embedding of the Transformer configuration module: the
    parameter-set resolver [get_model_params] over a store of dictionary
    objects, and [define_transformer_flags] with its four cross-field
    validators over a model of the flag registry. *)

From stdpp Require Import gmap strings pretty.

Local Open Scope Z_scope.
Local Open Scope string_scope.

(** ** Python exceptions and the state-and-exception monad *)

Inductive exn : Type :=
  | ValueError (msg : string)
  | KeyError (key : string)
  | DuplicateFlagError (flagname : string)
  | UnrecognizedFlagError (flagname : string)
  | IllegalFlagValueError (msg : string)
  | ValidationError (msg : string)
  | DanglingReference.

Inductive result (A : Type) : Type :=
  | Ok (a : A)
  | Raise (e : exn).

Arguments Ok {A} a.
Arguments Raise {A} e.

#[global] Instance exn_eq_dec : EqDecision exn.
Proof. solve_decision. Defined.

#[global] Instance result_eq_dec {A} `{EqDecision A} : EqDecision (result A).
Proof. solve_decision. Defined.

(** A computation reads and writes a state [S]; when it raises, the state
    reached so far stays, as in Python. *)
Definition M (S A : Type) : Type := S → result A * S.

Definition ret {S A} (a : A) : M S A := λ s, (Ok a, s).

Definition raise {S A} (e : exn) : M S A := λ s, (Raise e, s).

Definition bind {S A B} (c : M S A) (k : A → M S B) : M S B :=
  λ s, match c s with
       | (Ok a, s') => k a s'
       | (Raise e, s') => (Raise e, s')
       end.

#[global] Instance M_ret {S} : MRet (M S) := λ A, ret.
#[global] Instance M_bind {S} : MBind (M S) := λ A B k c, bind c k.

(** [s] occurs in [msg]. *)
Definition contains (msg s : string) : Prop :=
  ∃ pre post, msg = pre +:+ s +:+ post.

(** ** The store of dictionary objects *)

(** Object identities. *)
Abbreviation loc := positive (only parsing).

(** The names [official.transformer.model.model_params] binds: each is a
    reference to a dictionary object in the store. *)
Record model_params_module : Type := {
  TINY_PARAMS : loc;
  BASE_PARAMS : loc;
  BIG_PARAMS : loc;
  BASE_MULTI_GPU_PARAMS : loc;
  BIG_MULTI_GPU_PARAMS : loc
}.

Section params.
(** Hyperparameter values (numbers and booleans in model_params.py) are
    not inspected by this module. *)
Context {V : Type}.

Abbreviation heap := (gmap loc (gmap string V)) (only parsing).

Variable model_params : model_params_module.

(** [d.copy()]: a new object with the entries of [d]. *)
Definition dict_copy (l : loc) : M heap loc :=
  λ h, match h !! l with
       | Some d => let l' := fresh (dom h) in (Ok l', <[l' := d]> h)
       | None => (Raise DanglingReference, h)
       end.

(** [d[k] = v] on the object at [l]. *)
Definition dict_setitem (l : loc) (k : string) (v : V) : M heap unit :=
  λ h, match h !! l with
       | Some d => (Ok tt, <[l := <[k := v]> d]> h)
       | None => (Raise DanglingReference, h)
       end.

(** [del d[k]] on the object at [l]. *)
Definition dict_delitem (l : loc) (k : string) : M heap unit :=
  λ h, match h !! l with
       | Some d =>
           match d !! k with
           | Some _ => (Ok tt, <[l := delete k d]> h)
           | None => (Raise (KeyError k), h)
           end
       | None => (Raise DanglingReference, h)
       end.

(** The entries of PARAMS_MAP, in the order of the literal. *)
Definition PARAMS_MAP_items : list (string * loc) :=
  [ ("tiny", TINY_PARAMS model_params);
    ("base", BASE_PARAMS model_params);
    ("big", BIG_PARAMS model_params) ].

Definition PARAMS_MAP : gmap string loc := list_to_map PARAMS_MAP_items.

(** [PARAMS_MAP.keys()] *)
Definition PARAMS_MAP_keys : list string := PARAMS_MAP_items.*1.

(** ["Not valid params: param_set={} num_gpus={}".format(param_set, num_gpus)] *)
Definition not_valid_params (param_set : string) (num_gpus : Z) : string :=
  "Not valid params: param_set=" +:+ param_set +:+
  " num_gpus=" +:+ pretty num_gpus.

Definition get_model_params (param_set : string) (num_gpus : Z) : M heap loc :=
  if bool_decide (1 < num_gpus)%Z then
    if bool_decide (param_set = "big") then
      dict_copy (BIG_MULTI_GPU_PARAMS model_params)
    else if bool_decide (param_set = "base") then
      dict_copy (BASE_MULTI_GPU_PARAMS model_params)
    else
      raise (ValueError (not_valid_params param_set num_gpus))
  else
    match PARAMS_MAP !! param_set with
    | Some l => dict_copy l
    | None => raise (KeyError param_set)
    end.

(** Every record the module refers to is a live object of the store. *)
Definition stored_records : list loc :=
  [ TINY_PARAMS model_params; BASE_PARAMS model_params;
    BIG_PARAMS model_params; BASE_MULTI_GPU_PARAMS model_params;
    BIG_MULTI_GPU_PARAMS model_params ].

Definition model_params_loaded (h : heap) : Prop :=
  Forall (λ l, is_Some (h !! l)) stored_records.

(** The outcome [r] of a call in store [h] is a copy of the record at
    [src]: a new object, holding the entries of [src], added to a store
    that is otherwise as before. *)
Definition is_copy_of (src : loc) (h : heap) (r : result loc * heap) : Prop :=
  ∃ l d, h !! src = Some d ∧ (l ∉ dom h) ∧ r = (Ok l, <[l := d]> h).

(** Store [h2] comes from [h1] by changes to the object at [l] alone. *)
Definition mutation_of (l : loc) (h1 h2 : heap) : Prop :=
  is_Some (h2 !! l) ∧ ∀ l0, l0 ≠ l → h2 !! l0 = h1 !! l0.

End params.

(** ** Flag values *)

(** The Python values a flag can hold. *)
Inductive pyval : Type :=
  | PyNone
  | PyBool (b : bool)
  | PyInt (n : Z)
  | PyStr (s : string).

#[global] Instance pyval_eq_dec : EqDecision pyval.
Proof. solve_decision. Defined.

(** [v is None] *)
Definition is_None (v : pyval) : bool :=
  match v with PyNone => true | _ => false end.

(** The truth value of [v], as [if v:] tests it. *)
Definition truthy (v : pyval) : bool :=
  match v with
  | PyNone => false
  | PyBool b => b
  | PyInt n => negb (Z.eqb n 0)
  | PyStr s => negb (bool_decide (s = ""))
  end.

(** [v == s] for a string literal [s]. *)
Definition eq_str (v : pyval) (s : string) : bool :=
  match v with
  | PyStr s' => bool_decide (s' = s)
  | _ => false
  end.

Definition result_bind {A B} (k : A → result B) (r : result A) : result B :=
  match r with
  | Ok a => k a
  | Raise e => Raise e
  end.

#[global] Instance result_ret : MRet result := λ A, Ok.
#[global] Instance result_mbind : MBind result := λ A B, result_bind.

(** [d[k]] on a dictionary of flag values. *)
Definition getitem (d : gmap string pyval) (k : string) : result pyval :=
  match d !! k with
  | Some v => Ok v
  | None => Raise (KeyError k)
  end.

(** ** The validators of [define_transformer_flags] *)

Definition _check_train_limits (flag_dict : gmap string pyval) : result bool :=
  mode ← getitem flag_dict "mode";
  if eq_str mode "train" then
    train_epochs ← getitem flag_dict "train_epochs";
    mret (negb (is_None train_epochs))
  else mret true.

Definition _check_bleu_files (flags_dict : gmap string pyval) : result bool :=
  bleu_source ← getitem flags_dict "bleu_source";
  bleu_ref ← getitem flags_dict "bleu_ref";
  mret (Bool.eqb (is_None bleu_source) (is_None bleu_ref)).

Definition _check_bleu_vocab_file (flags_dict : gmap string pyval) : result bool :=
  bleu_source ← getitem flags_dict "bleu_source";
  if truthy bleu_source then
    bleu_ref ← getitem flags_dict "bleu_ref";
    if truthy bleu_ref then
      vocab_file ← getitem flags_dict "vocab_file";
      mret (negb (is_None vocab_file))
    else mret true
  else mret true.

Definition _check_export_vocab_file (flags_dict : gmap string pyval) : result bool :=
  export_dir ← getitem flags_dict "export_dir";
  if truthy export_dir then
    vocab_file ← getitem flags_dict "vocab_file";
    mret (negb (is_None vocab_file))
  else mret true.

(** ** The flag registry (absl.flags) *)

Inductive parser_kind : Type :=
  | ArgumentParser
  | BooleanParser
  | IntegerParser
  | EnumParser (enum_values : list string).

#[global] Instance parser_kind_eq_dec : EqDecision parser_kind.
Proof. solve_decision. Defined.

(** A declared flag. Help texts are left out. *)
Record Flag : Type := {
  flag_name : string;
  flag_short_name : option string;
  flag_parser : parser_kind;
  flag_default : pyval;
  flag_value : pyval;
  flag_using_default_value : bool
}.

#[global] Instance Flag_eq_dec : EqDecision Flag.
Proof. solve_decision. Defined.

Record MultiFlagsValidator : Type := {
  flag_names : list string;
  message : string;
  checker : gmap string pyval → result bool
}.

(** The registry: flags by full name, short aliases resolved to the full
    name of their flag (so that both names reach one flag object), and the
    validators in the order they were registered. *)
Record FlagValues : Type := {
  flags : gmap string Flag;
  short_names : gmap string string;
  validators : list MultiFlagsValidator
}.

(** [name in flag_values] *)
Definition declared (fv : FlagValues) (name : string) : bool :=
  bool_decide (is_Some (flags fv !! name)) ||
  bool_decide (is_Some (short_names fv !! name)).

(** [flag_values[name]] *)
Definition lookup_flag (fv : FlagValues) (name : string) : result Flag :=
  match flags fv !! name with
  | Some f => Ok f
  | None =>
      match short_names fv !! name with
      | Some long =>
          match flags fv !! long with
          | Some f => Ok f
          | None => Raise (KeyError name)
          end
      | None => Raise (KeyError name)
      end
  end.

(** The default a flag is declared with goes through the flag's parser.
    [None] stays; a default of the parser's own type is kept, an enum
    default has to be one of the enum values. Defaults of another type,
    which absl would convert, do not occur in this module and are
    rejected. *)
Definition parse_default (p : parser_kind) (name : string) (v : pyval) : result pyval :=
  match v, p with
  | PyNone, _ => Ok PyNone
  | PyStr _, ArgumentParser => Ok v
  | PyBool _, BooleanParser => Ok v
  | PyInt _, IntegerParser => Ok v
  | PyStr s, EnumParser enum_values =>
      if bool_decide (s ∈ enum_values) then Ok v
      else Raise (IllegalFlagValueError name)
  | _, _ => Raise (IllegalFlagValueError name)
  end.

(** [DEFINE_flag]: a name or short name that is taken is refused. *)
Definition DEFINE (p : parser_kind) (name : string) (default : pyval)
    (short_name : option string) : M FlagValues unit :=
  λ fv,
    match parse_default p name default with
    | Raise e => (Raise e, fv)
    | Ok d =>
        let f := {| flag_name := name; flag_short_name := short_name;
                    flag_parser := p; flag_default := d; flag_value := d;
                    flag_using_default_value := true |} in
        if declared fv name then (Raise (DuplicateFlagError name), fv)
        else
          match short_name with
          | None =>
              (Ok tt, {| flags := <[name := f]> (flags fv);
                         short_names := short_names fv;
                         validators := validators fv |})
          | Some s =>
              if declared fv s then (Raise (DuplicateFlagError s), fv)
              else
                (Ok tt, {| flags := <[name := f]> (flags fv);
                           short_names := <[s := name]> (short_names fv);
                           validators := validators fv |})
          end
    end.

Definition DEFINE_string := DEFINE ArgumentParser.
Definition DEFINE_bool := DEFINE BooleanParser.
Definition DEFINE_integer := DEFINE IntegerParser.

(** An enum flag needs at least one enum value. *)
Definition DEFINE_enum (name : string) (default : pyval)
    (enum_values : list string) (short_name : option string) : M FlagValues unit :=
  match enum_values with
  | [] => raise (ValueError "enum_values cannot be empty")
  | _ => DEFINE (EnumParser enum_values) name default short_name
  end.

(** [flags.multi_flags_validator]: every named flag has to be declared;
    the validator is added after those registered before. *)
Definition multi_flags_validator (names : list string) (msg : string)
    (check : gmap string pyval → result bool) : M FlagValues unit :=
  λ fv,
    match list_find (λ n, declared fv n = false) names with
    | Some (_, n) => (Raise (KeyError n), fv)
    | None =>
        (Ok tt, {| flags := flags fv;
                   short_names := short_names fv;
                   validators := validators fv ++
                     [ {| flag_names := names; message := msg; checker := check |} ] |})
    end.

(** [flags.adopt_module_key_flags]: key flags only decide what the short
    help lists; flags, defaults and validators stay as they are. *)
Definition adopt_module_key_flags : M FlagValues unit := mret tt.

(** Modelled from the spec: [flags_core.set_defaults] (official/utils/flags/core.py
    is not among the sources). "Defaults overridden for shared base
    options": each named option gets the given default, which is also its
    value while no value was given; an option that is not declared is
    refused. *)
Definition set_default (name : string) (v : pyval) : M FlagValues unit :=
  λ fv,
    match flags fv !! name with
    | None => (Raise (UnrecognizedFlagError name), fv)
    | Some f =>
        let f' := {| flag_name := flag_name f;
                     flag_short_name := flag_short_name f;
                     flag_parser := flag_parser f;
                     flag_default := v;
                     flag_value := if flag_using_default_value f then v else flag_value f;
                     flag_using_default_value := flag_using_default_value f |} in
        (Ok tt, {| flags := <[name := f']> (flags fv);
                   short_names := short_names fv;
                   validators := validators fv |})
    end.

Fixpoint set_defaults (kwargs : list (string * pyval)) : M FlagValues unit :=
  match kwargs with
  | [] => mret tt
  | (key, v) :: rest => set_default key v;; set_defaults rest
  end.

(** [Validator._get_input_to_checker_function]: the values of the
    validator's flags, by name. *)
Fixpoint input_to_checker (names : list string) (fv : FlagValues) :
    result (gmap string pyval) :=
  match names with
  | [] => Ok ∅
  | key :: rest =>
      f ← lookup_flag fv key;
      d ← input_to_checker rest fv;
      mret (<[key := flag_value f]> d)
  end.

(** [if not self.checker(param): raise ValidationError(self.message)] *)
Definition check_param (v : MultiFlagsValidator) (param : gmap string pyval) :
    result unit :=
  ok ← checker v param;
  if ok : bool then mret tt else Raise (ValidationError (message v)).

(** [Validator.verify] *)
Definition verify (v : MultiFlagsValidator) (fv : FlagValues) : result unit :=
  param ← input_to_checker (flag_names v) fv;
  check_param v param.

(** All validators, in the order of registration; the first that fails
    ends the run. *)
Fixpoint verify_all (vs : list MultiFlagsValidator) (fv : FlagValues) : result unit :=
  match vs with
  | [] => Ok tt
  | v :: rest => verify v fv;; verify_all rest fv
  end.

Definition validate_all_flags (fv : FlagValues) : result unit :=
  verify_all (validators fv) fv.

(** The four validators, each a checker with the flags it reads and the
    message of its decorator. *)
Definition train_limits_validator : MultiFlagsValidator :=
  {| flag_names := ["mode"; "train_epochs"];
     message := "--train_epochs must be defined in train mode";
     checker := _check_train_limits |}.

Definition bleu_files_validator : MultiFlagsValidator :=
  {| flag_names := ["bleu_source"; "bleu_ref"];
     message := "Both or neither --bleu_source and --bleu_ref must be defined.";
     checker := _check_bleu_files |}.

Definition bleu_vocab_file_validator : MultiFlagsValidator :=
  {| flag_names := ["bleu_source"; "bleu_ref"; "vocab_file"];
     message :=
       "--vocab_file must be defined if --bleu_source and --bleu_ref are defined.";
     checker := _check_bleu_vocab_file |}.

Definition export_vocab_file_validator : MultiFlagsValidator :=
  {| flag_names := ["export_dir"; "vocab_file"];
     message := "--vocab_file must be defined if --export_dir is set.";
     checker := _check_export_vocab_file |}.

Definition register (v : MultiFlagsValidator) : M FlagValues unit :=
  multi_flags_validator (flag_names v) (message v) (checker v).

(** The names and short names [define_transformer_flags] declares. *)
Definition transformer_flag_names : list string :=
  [ "param_set"; "mp"; "static_batch"; "steps_per_epoch"; "sbe";
    "init_epoch"; "is"; "init_weight_path"; "iwp";
    "init_logdir_timestamp"; "ilt"; "validation_steps"; "vs";
    "bleu_source"; "bls"; "bleu_ref"; "blr"; "vocab_file"; "vf"; "mode" ].

(** The shared flags this module sets defaults for or validates. *)
Definition shared_flag_names : list string :=
  [ "data_dir"; "model_dir"; "batch_size"; "train_epochs"; "export_dir" ].

Section flags.
(** What this module calls and the sources do not hold: the shared flag
    definitions of [official.utils.flags.core], and absl's parsers for
    boolean and integer arguments. *)
Variable define_base : M FlagValues unit.
Variable define_performance : list (string * bool) → M FlagValues unit.
Variable define_benchmark : M FlagValues unit.
Variable define_device : list (string * bool) → M FlagValues unit.
Variable require_cloud_storage : list string → M FlagValues unit.
Variable BooleanParser_parse : string → result pyval.
Variable IntegerParser_parse : string → result pyval.

Variable model_params : model_params_module.

Definition define_transformer_flags : M FlagValues unit :=
  define_base;;
  define_performance
    [ ("num_parallel_calls", true); ("inter_op", false); ("intra_op", false);
      ("synthetic_data", true); ("max_train_steps", false); ("dtype", false);
      ("all_reduce_alg", true) ];;
  define_benchmark;;
  define_device [ ("tpu", true) ];;
  adopt_module_key_flags;;
  DEFINE_enum "param_set" (PyStr "big") (PARAMS_MAP_keys model_params) (Some "mp");;
  DEFINE_bool "static_batch" (PyBool false) None;;
  DEFINE_integer "steps_per_epoch" (PyInt 1000) (Some "sbe");;
  DEFINE_integer "init_epoch" (PyInt 0) (Some "is");;
  DEFINE_string "init_weight_path" PyNone (Some "iwp");;
  DEFINE_string "init_logdir_timestamp" PyNone (Some "ilt");;
  DEFINE_integer "validation_steps" (PyInt 64) (Some "vs");;
  DEFINE_string "bleu_source" PyNone (Some "bls");;
  DEFINE_string "bleu_ref" PyNone (Some "blr");;
  DEFINE_string "vocab_file" PyNone (Some "vf");;
  DEFINE_string "mode" (PyStr "train") None;;
  set_defaults
    [ ("data_dir", PyStr "/tmp/translate_ende");
      ("model_dir", PyStr "/tmp/transformer_model");
      ("batch_size", PyNone);
      ("train_epochs", PyInt 10) ];;
  register train_limits_validator;;
  register bleu_files_validator;;
  register bleu_vocab_file_validator;;
  register export_vocab_file_validator;;
  require_cloud_storage ["data_dir"; "model_dir"; "export_dir"].

(** [parser.parse(argument)] for an argument of the command line. *)
Definition parser_parse (p : parser_kind) (argument : string) : result pyval :=
  match p with
  | ArgumentParser => Ok (PyStr argument)
  | BooleanParser => BooleanParser_parse argument
  | IntegerParser => IntegerParser_parse argument
  | EnumParser enum_values =>
      if bool_decide (argument ∈ enum_values) then Ok (PyStr argument)
      else Raise (ValueError ("value should be one of <" +:+
                              String.concat "|" enum_values +:+ ">"))
  end.

(** [Flag.parse]: a parser's ValueError becomes an IllegalFlagValueError
    that names the flag. *)
Definition Flag_parse (f : Flag) (argument : string) : result Flag :=
  match parser_parse (flag_parser f) argument with
  | Ok v =>
      Ok {| flag_name := flag_name f;
            flag_short_name := flag_short_name f;
            flag_parser := flag_parser f;
            flag_default := flag_default f;
            flag_value := v;
            flag_using_default_value := false |}
  | Raise (ValueError msg) =>
      Raise (IllegalFlagValueError
               ("flag --" +:+ flag_name f +:+ "=" +:+ argument +:+ ": " +:+ msg))
  | Raise e => Raise e
  end.

(** One [--name=argument] of the command line. *)
Definition parse_argument (name argument : string) : M FlagValues unit :=
  λ fv,
    match lookup_flag fv name with
    | Raise _ => (Raise (UnrecognizedFlagError name), fv)
    | Ok f =>
        match Flag_parse f argument with
        | Raise e => (Raise e, fv)
        | Ok f' =>
            (Ok tt, {| flags := <[flag_name f := f']> (flags fv);
                       short_names := short_names fv;
                       validators := validators fv |})
        end
    end.

(** What the statements on [define_transformer_flags] take for granted
    of the code that is not at hand: from the registry [fv0] the shared
    definitions run through and leave the registry [fv1]; [fv1] declares
    the shared flags this module refers to and none of the names this
    module declares; and [require_cloud_storage], called on a registry
    that declares at least the flags of [fv1], returns, leaves the
    declared flags as they are and at most adds validators. *)
Definition shared_flags_ready (fv0 fv1 : FlagValues) : Prop :=
  (∃ fva fvb fvc,
     define_base fv0 = (Ok tt, fva) ∧
     define_performance
       [ ("num_parallel_calls", true); ("inter_op", false); ("intra_op", false);
         ("synthetic_data", true); ("max_train_steps", false); ("dtype", false);
         ("all_reduce_alg", true) ] fva = (Ok tt, fvb) ∧
     define_benchmark fvb = (Ok tt, fvc) ∧
     define_device [ ("tpu", true) ] fvc = (Ok tt, fv1)) ∧
  Forall (λ n, is_Some (flags fv1 !! n)) shared_flag_names ∧
  Forall (λ n, declared fv1 n = false) transformer_flag_names ∧
  (∀ fv, dom (flags fv1) ⊆@{gset string} dom (flags fv) →
     ∃ fv' (vs : list MultiFlagsValidator),
       require_cloud_storage ["data_dir"; "model_dir"; "export_dir"] fv = (Ok tt, fv') ∧
       flags fv' = flags fv ∧ short_names fv' = short_names fv ∧
       validators fv' = (validators fv ++ vs)%list).

End flags.

(** ** Vocabulary of the validator statements *)

(** A validator accepts the values [param] of its flags, or turns them
    down with its message. *)
Definition accepts (v : MultiFlagsValidator) (param : gmap string pyval) : Prop :=
  check_param v param = Ok tt.

Definition rejects (v : MultiFlagsValidator) (param : gmap string pyval) : Prop :=
  check_param v param = Raise (ValidationError (message v)).

(** A flag is set when its value is not [None]. *)
Definition is_set (v : pyval) : Prop := v ≠ PyNone.

(** A positive count. *)
Definition positive_count (v : pyval) : Prop := ∃ n, v = PyInt n ∧ (0 < n)%Z.

(** The acceptance conditions in the words of the specification, with
    "set" read as above for every flag. *)
Definition train_limits_claimed (mode train_epochs : pyval) : Prop :=
  mode = PyStr "train" → positive_count train_epochs.

Definition bleu_vocab_file_claimed (bleu_source bleu_ref vocab_file : pyval) : Prop :=
  is_set bleu_source ∧ is_set bleu_ref → is_set vocab_file.

Definition export_vocab_file_claimed (export_dir vocab_file : pyval) : Prop :=
  is_set export_dir → is_set vocab_file.

(** The flag [name] of the registry has the value [v]. *)
Definition has_value (fv : FlagValues) (name : string) (v : pyval) : Prop :=
  ∃ f, lookup_flag fv name = Ok f ∧ flag_value f = v.

(** ** Vocabulary of the registry statements *)

(** One [DEFINE_*] call: parser, name, default, short name. *)
Definition decl : Type := parser_kind * string * pyval * option string.

Definition decl_name (d : decl) : string := d.1.1.2.

(** The names a declaration takes: the flag's name and its short name. *)
Definition decl_names (d : decl) : list string :=
  match d.2 with
  | Some s => [decl_name d; s]
  | None => [decl_name d]
  end.

Definition all_names (ds : list decl) : list string := ds ≫= decl_names.

Definition DEFINE_decl (d : decl) : M FlagValues unit :=
  DEFINE d.1.1.1 (decl_name d) d.1.2 d.2.

(** The declarations of [ds], one after the other, and then [k]. *)
Fixpoint define_seq {A} (ds : list decl) (k : M FlagValues A) : M FlagValues A :=
  match ds with
  | [] => k
  | d :: ds => DEFINE_decl d;; define_seq ds k
  end.

Definition flag_of_decl (d : decl) : Flag :=
  {| flag_name := decl_name d; flag_short_name := d.2;
     flag_parser := d.1.1.1; flag_default := d.1.2; flag_value := d.1.2;
     flag_using_default_value := true |}.

(** The registry after a declaration that went through. *)
Definition add_flag (d : decl) (fv : FlagValues) : FlagValues :=
  {| flags := <[decl_name d := flag_of_decl d]> (flags fv);
     short_names :=
       match d.2 with
       | Some s => <[s := decl_name d]> (short_names fv)
       | None => short_names fv
       end;
     validators := validators fv |}.

Definition add_flags (ds : list decl) (fv : FlagValues) : FlagValues :=
  foldl (λ fv d, add_flag d fv) fv ds.

(** A default of the parser's own type. *)
Definition default_ok (d : decl) : Prop :=
  parse_default d.1.1.1 (decl_name d) d.1.2 = Ok d.1.2.

(** The flag [f] with the default [v]. *)
Definition with_default (v : pyval) (f : Flag) : Flag :=
  {| flag_name := flag_name f;
     flag_short_name := flag_short_name f;
     flag_parser := flag_parser f;
     flag_default := v;
     flag_value := if flag_using_default_value f then v else flag_value f;
     flag_using_default_value := flag_using_default_value f |}.

(** The registry after [set_defaults kwargs] went through. *)
Definition apply_defaults (kwargs : list (string * pyval)) (fv : FlagValues) : FlagValues :=
  foldl (λ fv kv, {| flags := alter (with_default kv.2) kv.1 (flags fv);
                     short_names := short_names fv;
                     validators := validators fv |}) fv kwargs.

Definition add_validator (v : MultiFlagsValidator) (fv : FlagValues) : FlagValues :=
  {| flags := flags fv;
     short_names := short_names fv;
     validators := validators fv ++
       [ {| flag_names := flag_names v; message := message v; checker := checker v |} ] |}.

(** The flag [name] is declared with this short name, parser and default,
    holds its default, and its short name leads to it. *)
Definition declared_as (fv : FlagValues) (name : string) (short : option string)
    (p : parser_kind) (default : pyval) : Prop :=
  ∃ f, flags fv !! name = Some f ∧
       flag_name f = name ∧ flag_short_name f = short ∧
       flag_parser f = p ∧ flag_default f = default ∧ flag_value f = default ∧
       ∀ s, short = Some s → short_names fv !! s = Some name.

Definition has_default (fv : FlagValues) (name : string) (v : pyval) : Prop :=
  ∃ f, flags fv !! name = Some f ∧ flag_default f = v.

(** The transformer flags in the words of the specification's table of the
    external interface: name, short alias, type, default. *)
Definition interface_table : list (string * option string * parser_kind * pyval) :=
  [ ("param_set", Some "mp", EnumParser ["tiny"; "base"; "big"], PyStr "big");
    ("static_batch", None, BooleanParser, PyBool false);
    ("steps_per_epoch", Some "sbe", IntegerParser, PyInt 1000);
    ("init_epoch", Some "is", IntegerParser, PyInt 0);
    ("init_weight_path", Some "iwp", ArgumentParser, PyNone);
    ("init_logdir_timestamp", Some "ilt", ArgumentParser, PyNone);
    ("validation_steps", Some "vs", IntegerParser, PyInt 64);
    ("bleu_source", Some "bls", ArgumentParser, PyNone);
    ("bleu_ref", Some "blr", ArgumentParser, PyNone);
    ("vocab_file", Some "vf", ArgumentParser, PyNone);
    ("mode", None, ArgumentParser, PyStr "train") ].

(** The declarations of [define_transformer_flags], in the order of the
    code. *)
Definition transformer_decls (enum_values : list string) : list decl :=
  [ (EnumParser enum_values, "param_set", PyStr "big", Some "mp");
    (BooleanParser, "static_batch", PyBool false, None);
    (IntegerParser, "steps_per_epoch", PyInt 1000, Some "sbe");
    (IntegerParser, "init_epoch", PyInt 0, Some "is");
    (ArgumentParser, "init_weight_path", PyNone, Some "iwp");
    (ArgumentParser, "init_logdir_timestamp", PyNone, Some "ilt");
    (IntegerParser, "validation_steps", PyInt 64, Some "vs");
    (ArgumentParser, "bleu_source", PyNone, Some "bls");
    (ArgumentParser, "bleu_ref", PyNone, Some "blr");
    (ArgumentParser, "vocab_file", PyNone, Some "vf");
    (ArgumentParser, "mode", PyStr "train", None) ].

(** The defaults [define_transformer_flags] gives to shared flags. *)
Definition transformer_defaults : list (string * pyval) :=
  [ ("data_dir", PyStr "/tmp/translate_ende");
    ("model_dir", PyStr "/tmp/transformer_model");
    ("batch_size", PyNone);
    ("train_epochs", PyInt 10) ].

(** The flags the four validators read. *)
Definition validated_flag_names : list string :=
  [ "mode"; "train_epochs"; "bleu_source"; "bleu_ref"; "vocab_file"; "export_dir" ].

(** The registry [fv1] of the shared flags with the declarations of
    [define_transformer_flags] added and its defaults set. *)
Definition with_transformer_flags (fv1 : FlagValues) : FlagValues :=
  apply_defaults transformer_defaults
    (add_flags (transformer_decls ["tiny"; "base"; "big"]) fv1).

(** ** A sample store and registry

    Concrete inputs on which the statements below are exercised. *)

Definition sample_model_params : model_params_module :=
  {| TINY_PARAMS := 1; BASE_PARAMS := 2; BIG_PARAMS := 3;
     BASE_MULTI_GPU_PARAMS := 4; BIG_MULTI_GPU_PARAMS := 5 |}%positive.

Definition sample_store : gmap loc (gmap string Z) :=
  {[ 1%positive := {[ "hidden_size" := 32%Z ]};
     2%positive := {[ "hidden_size" := 512%Z ]};
     3%positive := {[ "hidden_size" := 1024%Z ]};
     4%positive := {[ "hidden_size" := 512%Z; "learning_rate_warmup_steps" := 8000%Z ]};
     5%positive := {[ "hidden_size" := 1024%Z; "learning_rate_warmup_steps" := 8000%Z ]} ]}.

(** The empty registry, and sample stand-ins for the shared flag
    definitions: the flags this module refers to, declared the way
    [define_transformer_flags] declares its own. *)
Definition empty_registry : FlagValues :=
  {| flags := ∅; short_names := ∅; validators := [] |}.

Definition sample_base_decls : list decl :=
  [ (ArgumentParser, "data_dir", PyStr "/tmp", Some "dd");
    (ArgumentParser, "model_dir", PyStr "/tmp", Some "md");
    (IntegerParser, "batch_size", PyInt 32, Some "bs");
    (IntegerParser, "train_epochs", PyInt 1, Some "te");
    (ArgumentParser, "export_dir", PyNone, Some "ed") ].

Definition sample_define_base : M FlagValues unit :=
  define_seq sample_base_decls (mret tt).

Definition sample_define_performance (kwargs : list (string * bool)) :
    M FlagValues unit :=
  mret tt.

Definition sample_define_benchmark : M FlagValues unit := mret tt.

Definition sample_define_device (kwargs : list (string * bool)) : M FlagValues unit :=
  define_seq [ (ArgumentParser, "tpu", PyNone, None) ] (mret tt).

Definition sample_require_cloud_storage (names : list string) : M FlagValues unit :=
  multi_flags_validator ("tpu" :: names) "TPU requires GCS path" (λ _, Ok true).

Definition sample_shared_registry : FlagValues :=
  add_flags (sample_base_decls ++ [ (ArgumentParser, "tpu", PyNone, None) ])
    empty_registry.

Definition sample_BooleanParser_parse (argument : string) : result pyval :=
  if bool_decide (argument ∈ ["true"; "t"; "1"]) then Ok (PyBool true)
  else if bool_decide (argument ∈ ["false"; "f"; "0"]) then Ok (PyBool false)
  else Raise (ValueError "Non-boolean argument to boolean flag").

Fixpoint digits_value (s : string) (acc : Z) : option Z :=
  match s with
  | "" => Some acc
  | String c s' =>
      let n := Z.of_nat (Ascii.nat_of_ascii c) in
      if bool_decide (48 ≤ n ≤ 57)%Z then digits_value s' (10 * acc + (n - 48))%Z
      else None
  end.

Definition sample_IntegerParser_parse (argument : string) : result pyval :=
  match argument, digits_value argument 0 with
  | String _ _, Some n => Ok (PyInt n)
  | _, _ => Raise (ValueError "invalid literal for int()")
  end.

(** A registry with both BLEU paths given as the empty string and the
    other flags of the validators at their defaults. *)
Definition sample_empty_bleu_registry : FlagValues :=
  add_flags
    [ (ArgumentParser, "bleu_source", PyStr "", Some "bls");
      (ArgumentParser, "bleu_ref", PyStr "", Some "blr");
      (ArgumentParser, "vocab_file", PyNone, Some "vf");
      (ArgumentParser, "export_dir", PyNone, Some "ed");
      (ArgumentParser, "mode", PyStr "train", None);
      (IntegerParser, "train_epochs", PyInt 10, Some "te") ]
    empty_registry.




(** * Properties *)

Lemma append_nil_r (s : string) : s +:+ "" = s.
Proof.
  induction s as [|a s IH]; [done|].
  change (String a (s +:+ "") = String a s). by rewrite IH.
Qed.

Lemma append_assoc (s1 s2 s3 : string) :
  (s1 +:+ s2) +:+ s3 = s1 +:+ (s2 +:+ s3).
Proof.
  induction s1 as [|a s1 IH]; [done|].
  change (String a ((s1 +:+ s2) +:+ s3) = String a (s1 +:+ (s2 +:+ s3))).
  by rewrite IH.
Qed.

(** ** The parameter-set resolver *)

Section params_spec.
Context {V : Type}.
Variable model_params : model_params_module.

Abbreviation heap := (gmap loc (gmap string V)) (only parsing).

Lemma dict_copy_is_copy (src : loc) (h : heap) :
  is_Some (h !! src) → is_copy_of src h (dict_copy src h).
Proof.
  intros [d Hd]. exists (fresh (dom h)), d.
  split; [done|]. split; [apply is_fresh|].
  unfold dict_copy. by rewrite Hd.
Qed.

Lemma loaded_lookup (h : heap) (l : loc) :
  model_params_loaded model_params h → l ∈ stored_records model_params → is_Some (h !! l).
Proof.
  unfold model_params_loaded. rewrite Forall_forall. auto.
Qed.

Lemma PARAMS_MAP_lookup_Some (param_set : string) (l : loc) :
  PARAMS_MAP model_params !! param_set = Some l →
  (param_set = "tiny" ∧ l = TINY_PARAMS model_params) ∨
  (param_set = "base" ∧ l = BASE_PARAMS model_params) ∨
  (param_set = "big" ∧ l = BIG_PARAMS model_params).
Proof.
  unfold PARAMS_MAP, PARAMS_MAP_items. simpl. intros H.
  destruct (decide (param_set = "tiny")) as [->|?];
    [rewrite lookup_insert_eq in H; naive_solver|rewrite lookup_insert_ne in H by done].
  destruct (decide (param_set = "base")) as [->|?];
    [rewrite lookup_insert_eq in H; naive_solver|rewrite lookup_insert_ne in H by done].
  destruct (decide (param_set = "big")) as [->|?];
    [rewrite lookup_insert_eq in H; naive_solver|rewrite lookup_insert_ne in H by done].
  by rewrite lookup_empty in H.
Qed.

Lemma PARAMS_MAP_lookup_None (param_set : string) :
  param_set ≠ "tiny" → param_set ≠ "base" → param_set ≠ "big" →
  PARAMS_MAP model_params !! param_set = None.
Proof.
  intros. unfold PARAMS_MAP, PARAMS_MAP_items. simpl.
  by rewrite !lookup_insert_ne, lookup_empty by done.
Qed.

Lemma PARAMS_MAP_stored (param_set : string) (l : loc) :
  PARAMS_MAP model_params !! param_set = Some l → l ∈ stored_records model_params.
Proof.
  intros [[_ ->]|[[_ ->]|[_ ->]]]%PARAMS_MAP_lookup_Some;
    unfold stored_records; set_solver.
Qed.

Lemma contains_param_set (param_set : string) (num_gpus : Z) :
  contains (not_valid_params param_set num_gpus) param_set.
Proof.
  exists "Not valid params: param_set=", (" num_gpus=" +:+ pretty num_gpus).
  reflexivity.
Qed.

Lemma contains_num_gpus (param_set : string) (num_gpus : Z) :
  contains (not_valid_params param_set num_gpus) (pretty num_gpus).
Proof.
  exists ("Not valid params: param_set=" +:+ param_set +:+ " num_gpus="), "".
  unfold not_valid_params.
  by rewrite append_nil_r, !append_assoc.
Qed.

Example not_valid_params_tiny_2 :
  not_valid_params "tiny" 2 = "Not valid params: param_set=tiny num_gpus=2".
Proof. reflexivity. Qed.

(** C1: with more than one device, "big" and "base" give a copy of their
    multi-device record; every other name (so "tiny" too) ends in a
    ValueError whose message holds the name and the device count, and
    the store is left as it was. *)
Theorem get_model_params_multi_gpu (h : heap) (param_set : string) (num_gpus : Z) :
  model_params_loaded model_params h →
  (1 < num_gpus)%Z →
  (param_set = "big" →
     is_copy_of (BIG_MULTI_GPU_PARAMS model_params) h
       (get_model_params model_params param_set num_gpus h)) ∧
  (param_set = "base" →
     is_copy_of (BASE_MULTI_GPU_PARAMS model_params) h
       (get_model_params model_params param_set num_gpus h)) ∧
  (param_set ≠ "big" → param_set ≠ "base" →
     ∃ msg,
       get_model_params model_params param_set num_gpus h = (Raise (ValueError msg), h) ∧
       contains msg param_set ∧ contains msg (pretty num_gpus)).
Proof.
  intros Hh Hn. unfold get_model_params.
  rewrite bool_decide_eq_true_2 by done.
  split; [|split].
  - intros ->. simpl. apply dict_copy_is_copy.
    apply (loaded_lookup h _ Hh). unfold stored_records. set_solver.
  - intros ->. simpl. apply dict_copy_is_copy.
    apply (loaded_lookup h _ Hh). unfold stored_records. set_solver.
  - intros Hbig Hbase.
    rewrite !bool_decide_eq_false_2 by done.
    exists (not_valid_params param_set num_gpus).
    split; [done|].
    split; [apply contains_param_set|apply contains_num_gpus].
Qed.

(** C2: with at most one device, "tiny", "base" and "big" give a copy of
    their record of PARAMS_MAP; every other name ends in a KeyError. *)
Theorem get_model_params_single_gpu (h : heap) (param_set : string) (num_gpus : Z) :
  model_params_loaded model_params h →
  (num_gpus ≤ 1)%Z →
  (param_set = "tiny" →
     is_copy_of (TINY_PARAMS model_params) h
       (get_model_params model_params param_set num_gpus h)) ∧
  (param_set = "base" →
     is_copy_of (BASE_PARAMS model_params) h
       (get_model_params model_params param_set num_gpus h)) ∧
  (param_set = "big" →
     is_copy_of (BIG_PARAMS model_params) h
       (get_model_params model_params param_set num_gpus h)) ∧
  (param_set ≠ "tiny" → param_set ≠ "base" → param_set ≠ "big" →
     get_model_params model_params param_set num_gpus h =
       (Raise (KeyError param_set), h)).
Proof.
  intros Hh Hn. unfold get_model_params.
  rewrite bool_decide_eq_false_2 by lia.
  repeat split.
  - intros ->. change (PARAMS_MAP model_params !! "tiny")
      with (Some (TINY_PARAMS model_params)).
    apply dict_copy_is_copy, (loaded_lookup h _ Hh).
    unfold stored_records. set_solver.
  - intros ->. change (PARAMS_MAP model_params !! "base")
      with (Some (BASE_PARAMS model_params)).
    apply dict_copy_is_copy, (loaded_lookup h _ Hh).
    unfold stored_records. set_solver.
  - intros ->. change (PARAMS_MAP model_params !! "big")
      with (Some (BIG_PARAMS model_params)).
    apply dict_copy_is_copy, (loaded_lookup h _ Hh).
    unfold stored_records. set_solver.
  - intros. by rewrite PARAMS_MAP_lookup_None.
Qed.

Lemma dict_copy_Ok (src l : loc) (h h1 : heap) :
  dict_copy src h = (Ok l, h1) →
  ∃ d, h !! src = Some d ∧ l = fresh (dom h) ∧ h1 = <[l := d]> h.
Proof.
  unfold dict_copy. destruct (h !! src) as [d|] eqn:Hd; [|done].
  intros [= <- <-]. by exists d.
Qed.

(** Which branch a call takes does not depend on the store. *)
Lemma get_model_params_branch (param_set : string) (num_gpus : Z) :
  (∃ src, src ∈ stored_records model_params ∧
          ∀ h : heap, get_model_params model_params param_set num_gpus h = dict_copy src h) ∨
  (∃ e, ∀ h : heap, get_model_params model_params param_set num_gpus h = (Raise e, h)).
Proof.
  unfold get_model_params.
  repeat case_bool_decide.
  - left. eexists. split; [|done]. unfold stored_records. set_solver.
  - left. eexists. split; [|done]. unfold stored_records. set_solver.
  - right. by eexists.
  - destruct (PARAMS_MAP model_params !! param_set) as [l|] eqn:Hl.
    + left. exists l. split; [|done]. by eapply PARAMS_MAP_stored.
    + right. by eexists.
Qed.

Lemma dict_setitem_mutation (l : loc) (k : string) (v : V) (h1 : heap) :
  is_Some (h1 !! l) →
  ∃ h2, dict_setitem l k v h1 = (Ok tt, h2) ∧ mutation_of l h1 h2.
Proof.
  intros [d Hd]. unfold dict_setitem. rewrite Hd.
  eexists. split; [done|]. split.
  - rewrite lookup_insert_eq. by eexists.
  - intros l0 Hl0. by rewrite lookup_insert_ne.
Qed.

Lemma dict_delitem_mutation (l : loc) (k : string) (h1 : heap) (d : gmap string V) :
  h1 !! l = Some d → is_Some (d !! k) →
  ∃ h2, dict_delitem l k h1 = (Ok tt, h2) ∧ mutation_of l h1 h2.
Proof.
  intros Hd [v Hv]. unfold dict_delitem. rewrite Hd, Hv.
  eexists. split; [done|]. split.
  - rewrite lookup_insert_eq. by eexists.
  - intros l0 Hl0. by rewrite lookup_insert_ne.
Qed.

(** C3: a call that succeeds returns a new object, none of the stored
    records, with the entries of a stored record, and leaves every
    object that was in the store as it was. Writing to the returned
    record changes no object that was there before the call; a second
    call with the same arguments then returns another new object with
    the entries the first call returned, and leaves the record of the
    first caller as that caller wrote it. *)
Theorem get_model_params_returns_copy
    (h h1 : heap) (param_set : string) (num_gpus : Z) (l : loc) :
  model_params_loaded model_params h →
  get_model_params model_params param_set num_gpus h = (Ok l, h1) →
  (l ∉ dom h) ∧
  (l ∉ stored_records model_params) ∧
  (∃ src, src ∈ stored_records model_params ∧
          is_Some (h !! src) ∧ h1 !! l = h !! src) ∧
  (∀ l0, l0 ∈ dom h → h1 !! l0 = h !! l0) ∧
  (∀ k v, ∃ h2, dict_setitem l k v h1 = (Ok tt, h2) ∧ mutation_of l h1 h2) ∧
  (∀ h2, mutation_of l h1 h2 →
     (∀ l0, l0 ∈ dom h → h2 !! l0 = h !! l0) ∧
     ∃ l' h3,
       get_model_params model_params param_set num_gpus h2 = (Ok l', h3) ∧
       l' ≠ l ∧ h3 !! l' = h1 !! l ∧ h3 !! l = h2 !! l).
Proof.
  intros Hh Hcall.
  destruct (get_model_params_branch param_set num_gpus)
    as [(src & Hsrc & Hbranch)|(e & Hbranch)];
    [|by rewrite Hbranch in Hcall].
  rewrite Hbranch in Hcall.
  apply dict_copy_Ok in Hcall as (d & Hd & Hl & ->).
  assert (Hfresh : l ∉ dom h) by (subst l; apply is_fresh).
  assert (Hold : ∀ l0, l0 ∈ dom h → l0 ≠ l) by (intros l0 ? ->; done).
  assert (Hstored : ∀ l0, l0 ∈ stored_records model_params → l0 ∈ dom h).
  { intros l0 Hl0. apply elem_of_dom. by apply loaded_lookup. }
  split; [done|].
  split; [intros Hin; by apply Hfresh, Hstored|].
  split.
  { exists src. rewrite lookup_insert_eq, Hd. by eauto. }
  split.
  { intros l0 Hl0. rewrite lookup_insert_ne; [done|]. intros <-. by apply (Hold l). }
  split.
  { intros k v. apply dict_setitem_mutation. rewrite lookup_insert_eq. by eexists. }
  intros h2 [Hlive Hsame].
  assert (Hkept : ∀ l0, l0 ∈ dom h → h2 !! l0 = h !! l0).
  { intros l0 Hl0. rewrite Hsame by by apply Hold.
    rewrite lookup_insert_ne; [done|]. intros <-. by apply (Hold l). }
  split; [done|].
  rewrite Hbranch. unfold dict_copy.
  rewrite (Hkept src) by by apply Hstored. rewrite Hd.
  eexists _, _. split; [done|].
  assert (Hne : fresh (dom h2) ≠ l).
  { intros Heq. apply (is_fresh (dom h2)). rewrite Heq. by apply elem_of_dom. }
  split; [done|].
  rewrite !lookup_insert_eq. split; [done|].
  by rewrite lookup_insert_ne.
Qed.

End params_spec.

Lemma sample_store_loaded : model_params_loaded sample_model_params sample_store.
Proof. apply (bool_decide_unpack _). vm_compute. exact I. Qed.

(** C1 on the sample store: "tiny" with two devices. *)
Lemma get_model_params_multi_gpu_witness :
  ∃ msg,
    get_model_params sample_model_params "tiny" 2 sample_store =
      (Raise (ValueError msg), sample_store) ∧
    contains msg "tiny" ∧ contains msg "2".
Proof.
  refine (proj2 (proj2 (get_model_params_multi_gpu sample_model_params
                          sample_store "tiny" 2 sample_store_loaded _)) _ _).
  - lia.
  - discriminate.
  - discriminate.
Defined.

(** C2 on the sample store: "tiny" and an unknown name with one device. *)
Lemma get_model_params_single_gpu_witness :
  is_copy_of (TINY_PARAMS sample_model_params) sample_store
    (get_model_params sample_model_params "tiny" 1 sample_store) ∧
  get_model_params sample_model_params "unknown" 1 sample_store =
    (Raise (KeyError "unknown"), sample_store).
Proof.
  pose proof (get_model_params_single_gpu sample_model_params sample_store "tiny" 1
                sample_store_loaded ltac:(lia)) as Htiny.
  pose proof (get_model_params_single_gpu sample_model_params sample_store "unknown" 1
                sample_store_loaded ltac:(lia)) as Hunknown.
  split.
  - exact (proj1 Htiny eq_refl).
  - apply (proj2 (proj2 (proj2 Hunknown))); discriminate.
Defined.

(** C3 on the sample store: "big" with four devices returns the new
    object 6. *)
Lemma get_model_params_returns_copy_witness :
  (6%positive ∉ dom sample_store) ∧
  (6%positive ∉ stored_records sample_model_params).
Proof.
  pose proof (get_model_params_returns_copy sample_model_params sample_store
                (<[6%positive := {[ "hidden_size" := 1024%Z;
                                    "learning_rate_warmup_steps" := 8000%Z ]}]> sample_store)
                "big" 4 6%positive sample_store_loaded) as H.
  assert (Hcall : get_model_params sample_model_params "big" 4 sample_store =
                  (Ok 6%positive,
                   <[6%positive := {[ "hidden_size" := 1024%Z;
                                      "learning_rate_warmup_steps" := 8000%Z ]}]> sample_store))
    by (apply (bool_decide_unpack _); vm_compute; exact I).
  exact (conj (proj1 (H Hcall)) (proj1 (proj2 (H Hcall)))).
Defined.

(** ** The cross-field validators *)

Lemma getitem_Some (d : gmap string pyval) (k : string) (v : pyval) :
  d !! k = Some v → getitem d k = Ok v.
Proof. intros H. unfold getitem. by rewrite H. Qed.

Lemma result_bind_Ok {A B} (a : A) (k : A → result B) : Ok a ≫= k = k a.
Proof. reflexivity. Qed.

Lemma _check_train_limits_eval (d : gmap string pyval) (mode te : pyval) :
  d !! "mode" = Some mode → d !! "train_epochs" = Some te →
  _check_train_limits d =
    Ok (if eq_str mode "train" then negb (is_None te) else true).
Proof.
  intros Hm Ht. unfold _check_train_limits.
  rewrite (getitem_Some _ _ _ Hm), result_bind_Ok.
  destruct (eq_str mode "train"); [|done].
  by rewrite (getitem_Some _ _ _ Ht).
Qed.

Lemma _check_bleu_files_eval (d : gmap string pyval) (src ref : pyval) :
  d !! "bleu_source" = Some src → d !! "bleu_ref" = Some ref →
  _check_bleu_files d = Ok (Bool.eqb (is_None src) (is_None ref)).
Proof.
  intros Hs Hr. unfold _check_bleu_files.
  by rewrite (getitem_Some _ _ _ Hs), (getitem_Some _ _ _ Hr).
Qed.

Lemma _check_bleu_vocab_file_eval (d : gmap string pyval) (src ref vf : pyval) :
  d !! "bleu_source" = Some src → d !! "bleu_ref" = Some ref →
  d !! "vocab_file" = Some vf →
  _check_bleu_vocab_file d =
    Ok (if truthy src && truthy ref then negb (is_None vf) else true).
Proof.
  intros Hs Hr Hv. unfold _check_bleu_vocab_file.
  rewrite (getitem_Some _ _ _ Hs), result_bind_Ok.
  destruct (truthy src); [|done].
  rewrite (getitem_Some _ _ _ Hr), result_bind_Ok.
  destruct (truthy ref); [|done].
  by rewrite (getitem_Some _ _ _ Hv).
Qed.

Lemma _check_export_vocab_file_eval (d : gmap string pyval) (export_dir vf : pyval) :
  d !! "export_dir" = Some export_dir → d !! "vocab_file" = Some vf →
  _check_export_vocab_file d =
    Ok (if truthy export_dir then negb (is_None vf) else true).
Proof.
  intros He Hv. unfold _check_export_vocab_file.
  rewrite (getitem_Some _ _ _ He), result_bind_Ok.
  destruct (truthy export_dir); [|done].
  by rewrite (getitem_Some _ _ _ Hv).
Qed.

(** A checker that returns decides between acceptance and the message. *)
Lemma check_param_Ok (v : MultiFlagsValidator) (d : gmap string pyval) (b : bool) :
  checker v d = Ok b →
  (accepts v d ↔ b = true) ∧ (b = false → rejects v d).
Proof.
  intros H. unfold accepts, rejects, check_param.
  rewrite H, result_bind_Ok.
  destruct b; split; try done; split; done.
Qed.

Lemma is_None_false (v : pyval) : is_None v = false ↔ is_set v.
Proof. unfold is_set. by destruct v. Qed.

Lemma is_None_true (v : pyval) : is_None v = true ↔ ¬ is_set v.
Proof.
  unfold is_set. destruct v; simpl; split; intros H; try done;
    try (by intros H'; apply H'); by destruct H.
Qed.

Lemma eq_str_true (v : pyval) (s : string) : eq_str v s = true ↔ v = PyStr s.
Proof.
  destruct v; simpl; try (split; done).
  rewrite bool_decide_eq_true. split; congruence.
Qed.

(** For the value of a string flag, the truth test singles out the
    strings that are not empty. *)
Lemma truthy_str (v : pyval) :
  (v = PyNone ∨ ∃ s, v = PyStr s) →
  (truthy v = true ↔ ∃ s, v = PyStr s ∧ s ≠ "").
Proof.
  intros [->|[s ->]]; simpl.
  - split; [done|]. by intros (s & ? & _).
  - rewrite negb_true_iff, bool_decide_eq_false. split.
    + intros Hs. by exists s.
    + by intros (s' & [= <-] & Hs).
Qed.

(** The validators on the assignments the specification lists. *)
Example train_mode_without_epochs :
  rejects train_limits_validator
    {[ "mode" := PyStr "train"; "train_epochs" := PyNone ]}.
Proof. reflexivity. Qed.

Example eval_mode_without_epochs :
  accepts train_limits_validator
    {[ "mode" := PyStr "eval"; "train_epochs" := PyNone ]}.
Proof. reflexivity. Qed.

Example only_bleu_source :
  rejects bleu_files_validator
    {[ "bleu_source" := PyStr "newstest2014.en"; "bleu_ref" := PyNone ]}.
Proof. reflexivity. Qed.

Example bleu_files_without_vocab_file :
  rejects bleu_vocab_file_validator
    {[ "bleu_source" := PyStr "newstest2014.en";
       "bleu_ref" := PyStr "newstest2014.de"; "vocab_file" := PyNone ]}.
Proof. reflexivity. Qed.

Example bleu_files_with_vocab_file :
  accepts bleu_vocab_file_validator
    {[ "bleu_source" := PyStr "newstest2014.en";
       "bleu_ref" := PyStr "newstest2014.de"; "vocab_file" := PyStr "vocab.ende" ]}.
Proof. reflexivity. Qed.

Example export_dir_without_vocab_file :
  rejects export_vocab_file_validator
    {[ "export_dir" := PyStr "/tmp/export"; "vocab_file" := PyNone ]}.
Proof. reflexivity. Qed.

Example export_dir_with_vocab_file :
  accepts export_vocab_file_validator
    {[ "export_dir" := PyStr "/tmp/export"; "vocab_file" := PyStr "vocab.ende" ]}.
Proof. reflexivity. Qed.

(** C4, as the code decides it: the train-mode validator accepts exactly
    when mode is not "train" or train_epochs is set (any value but None, so
    zero and negative counts too); mode "train" with train_epochs unset is
    turned down with the validator's message, and any other mode is
    accepted whatever train_epochs holds. *)
Theorem train_limits_accepts_iff (mode train_epochs : pyval) :
  let d : gmap string pyval := {[ "mode" := mode; "train_epochs" := train_epochs ]} in
  (accepts train_limits_validator d ↔ (mode = PyStr "train" → is_set train_epochs)) ∧
  (mode = PyStr "train" ∧ train_epochs = PyNone →
     check_param train_limits_validator d =
       Raise (ValidationError "--train_epochs must be defined in train mode")) ∧
  (mode ≠ PyStr "train" → accepts train_limits_validator d).
Proof.
  intros d.
  destruct (check_param_Ok train_limits_validator d _
              (_check_train_limits_eval d mode train_epochs eq_refl eq_refl))
    as [Hacc Hrej].
  pose proof (eq_str_true mode "train") as Hmode.
  split; [|split].
  - rewrite Hacc. destruct (eq_str mode "train").
    + rewrite negb_true_iff, is_None_false. split; [done|].
      intros H. by apply H, Hmode.
    + split; [|done]. intros _ Hm. apply Hmode in Hm. done.
  - intros [Hm ->]. apply Hrej.
    apply Hmode in Hm. by rewrite Hm.
  - intros Hm. apply Hacc.
    destruct (eq_str mode "train"); [|done]. destruct Hm. by apply Hmode.
Qed.

(** C4, counterexample to the wording: with mode "train" and train_epochs
    0 the validator accepts, though no positive count is set. *)
Lemma train_limits_accepts_zero_epochs :
  accepts train_limits_validator
    {[ "mode" := PyStr "train"; "train_epochs" := PyInt 0 ]} ∧
  ¬ train_limits_claimed (PyStr "train") (PyInt 0).
Proof.
  split; [reflexivity|].
  intros H. destruct (H eq_refl) as (n & [= <-] & Hn). lia.
Qed.

(** C5: the BLEU-files validator accepts exactly when bleu_source and
    bleu_ref are both set or both unset; when exactly one of them is set
    it fails with its message. *)
Theorem bleu_files_accepts_iff (bleu_source bleu_ref : pyval) :
  let d : gmap string pyval :=
    {[ "bleu_source" := bleu_source; "bleu_ref" := bleu_ref ]} in
  (accepts bleu_files_validator d ↔
     (is_set bleu_source ∧ is_set bleu_ref) ∨
     (¬ is_set bleu_source ∧ ¬ is_set bleu_ref)) ∧
  ((is_set bleu_source ∧ ¬ is_set bleu_ref) ∨
   (¬ is_set bleu_source ∧ is_set bleu_ref) →
     check_param bleu_files_validator d =
       Raise (ValidationError
                "Both or neither --bleu_source and --bleu_ref must be defined.")).
Proof.
  intros d.
  destruct (check_param_Ok bleu_files_validator d _
              (_check_bleu_files_eval d bleu_source bleu_ref eq_refl eq_refl))
    as [Hacc Hrej].
  split.
  - rewrite Hacc. unfold is_set.
    destruct bleu_source, bleu_ref; simpl; intuition congruence.
  - intros H. apply Hrej. unfold is_set in H.
    destruct bleu_source, bleu_ref; simpl; intuition congruence.
Qed.

(** C6, as the code decides it: the BLEU-vocab validator accepts exactly
    when bleu_source or bleu_ref fails the truth test (unset, or the empty
    string) or vocab_file is set; with both BLEU paths passing the truth
    test and vocab_file unset it fails with its message. *)
Theorem bleu_vocab_file_accepts_iff (bleu_source bleu_ref vocab_file : pyval) :
  let d : gmap string pyval :=
    {[ "bleu_source" := bleu_source; "bleu_ref" := bleu_ref;
       "vocab_file" := vocab_file ]} in
  (accepts bleu_vocab_file_validator d ↔
     (truthy bleu_source = true ∧ truthy bleu_ref = true → is_set vocab_file)) ∧
  (truthy bleu_source = false ∨ truthy bleu_ref = false →
     accepts bleu_vocab_file_validator d) ∧
  (truthy bleu_source = true ∧ truthy bleu_ref = true ∧ vocab_file = PyNone →
     check_param bleu_vocab_file_validator d =
       Raise (ValidationError
                "--vocab_file must be defined if --bleu_source and --bleu_ref are defined.")).
Proof.
  intros d.
  destruct (check_param_Ok bleu_vocab_file_validator d _
              (_check_bleu_vocab_file_eval d bleu_source bleu_ref vocab_file
                 eq_refl eq_refl eq_refl))
    as [Hacc Hrej].
  split; [|split].
  - rewrite Hacc.
    destruct (truthy bleu_source), (truthy bleu_ref); simpl;
      rewrite ?negb_true_iff, ?is_None_false; intuition congruence.
  - intros H. apply Hacc.
    destruct (truthy bleu_source), (truthy bleu_ref); simpl;
      intuition congruence.
  - intros (Hs & Hr & ->). apply Hrej. by rewrite Hs, Hr.
Qed.

(** C6, counterexample to the wording: with both BLEU paths set to the
    empty string and vocab_file unset the validator accepts. *)
Lemma bleu_vocab_file_accepts_empty_paths :
  accepts bleu_vocab_file_validator
    {[ "bleu_source" := PyStr ""; "bleu_ref" := PyStr ""; "vocab_file" := PyNone ]} ∧
  ¬ bleu_vocab_file_claimed (PyStr "") (PyStr "") PyNone.
Proof.
  split; [reflexivity|].
  intros H. by apply H.
Qed.

(** C7, as the code decides it: the export-vocab validator accepts
    exactly when export_dir fails the truth test (unset, or the empty
    string) or vocab_file is set; with export_dir passing the truth test and
    vocab_file unset it fails with its message. *)
Theorem export_vocab_file_accepts_iff (export_dir vocab_file : pyval) :
  let d : gmap string pyval :=
    {[ "export_dir" := export_dir; "vocab_file" := vocab_file ]} in
  (accepts export_vocab_file_validator d ↔
     (truthy export_dir = true → is_set vocab_file)) ∧
  (truthy export_dir = false → accepts export_vocab_file_validator d) ∧
  (truthy export_dir = true ∧ vocab_file = PyNone →
     check_param export_vocab_file_validator d =
       Raise (ValidationError
                "--vocab_file must be defined if --export_dir is set.")).
Proof.
  intros d.
  destruct (check_param_Ok export_vocab_file_validator d _
              (_check_export_vocab_file_eval d export_dir vocab_file
                 eq_refl eq_refl))
    as [Hacc Hrej].
  split; [|split].
  - rewrite Hacc.
    destruct (truthy export_dir); simpl;
      rewrite ?negb_true_iff, ?is_None_false; intuition congruence.
  - intros H. apply Hacc. by rewrite H.
  - intros (He & ->). apply Hrej. by rewrite He.
Qed.

(** C7, counterexample to the wording: with export_dir set to the empty
    string and vocab_file unset the validator accepts. *)
Lemma export_vocab_file_accepts_empty_dir :
  accepts export_vocab_file_validator
    {[ "export_dir" := PyStr ""; "vocab_file" := PyNone ]} ∧
  ¬ export_vocab_file_claimed (PyStr "") PyNone.
Proof.
  split; [reflexivity|].
  intros H. by apply H.
Qed.

(** ** The flag registry *)

Lemma bind_Ok {S A B} (c : M S A) (k : A → M S B) (s s' : S) (a : A) :
  c s = (Ok a, s') → (c ≫= k) s = k a s'.
Proof.
  intros H. unfold mbind, M_bind, bind. by rewrite H.
Qed.

Lemma declared_false (fv : FlagValues) (n : string) :
  declared fv n = false ↔ flags fv !! n = None ∧ short_names fv !! n = None.
Proof.
  unfold declared. rewrite orb_false_iff, !bool_decide_eq_false.
  rewrite <- !eq_None_not_Some. done.
Qed.

Lemma declared_true (fv : FlagValues) (n : string) :
  is_Some (flags fv !! n) → declared fv n = true.
Proof.
  intros H. unfold declared. by rewrite bool_decide_eq_true_2.
Qed.

Lemma DEFINE_decl_Ok (d : decl) (fv : FlagValues) :
  default_ok d →
  Forall (λ n, declared fv n = false) (decl_names d) →
  DEFINE_decl d fv = (Ok tt, add_flag d fv).
Proof.
  destruct d as [[[p n] v] [s|]]; unfold default_ok, decl_names, decl_name;
    simpl; intros Hv Hfree; unfold DEFINE_decl, DEFINE, decl_name; simpl;
    rewrite Hv.
  - apply Forall_cons in Hfree as [-> Hfree].
    apply Forall_cons in Hfree as [-> _]. done.
  - apply Forall_cons in Hfree as [-> _]. done.
Qed.

Lemma add_flag_free (d : decl) (fv : FlagValues) (m : string) :
  declared fv m = false → m ∉ decl_names d → declared (add_flag d fv) m = false.
Proof.
  rewrite !declared_false. intros [Hf Hs] Hm.
  destruct d as [[[p n] v] [s|]]; unfold decl_names, decl_name in Hm;
    unfold add_flag, decl_name; simpl in *.
  - rewrite !lookup_insert_ne by set_solver. done.
  - rewrite !lookup_insert_ne by set_solver. done.
Qed.

Lemma define_seq_Ok {A} (ds : list decl) (k : M FlagValues A) (fv : FlagValues) :
  Forall default_ok ds →
  NoDup (all_names ds) →
  Forall (λ n, declared fv n = false) (all_names ds) →
  define_seq ds k fv = k (add_flags ds fv).
Proof.
  revert fv. induction ds as [|d ds IH]; intros fv Hok Hnd Hfree; [done|].
  unfold all_names in *. rewrite bind_cons in Hnd, Hfree.
  apply Forall_cons in Hok as [Hd Hok].
  apply NoDup_app in Hnd as (_ & Hdisj & Hnd).
  apply Forall_app in Hfree as [Hfd Hfree].
  simpl. rewrite (bind_Ok _ _ _ _ _ (DEFINE_decl_Ok d fv Hd Hfd)).
  apply IH; [done|done|].
  rewrite Forall_forall in Hfree |- *.
  intros m Hm. apply add_flag_free; [by apply Hfree|].
  intros Hin. by apply (Hdisj m).
Qed.

Lemma flags_add_flags_notin (ds : list decl) (fv : FlagValues) (m : string) :
  m ∉ decl_name <$> ds → flags (add_flags ds fv) !! m = flags fv !! m.
Proof.
  revert fv. induction ds as [|d ds IH]; intros fv Hm; [done|].
  rewrite fmap_cons, not_elem_of_cons in Hm. destruct Hm as [Hne Hm].
  simpl. rewrite IH by done. simpl. by rewrite lookup_insert_ne.
Qed.

Lemma flags_add_flags_in (ds : list decl) (fv : FlagValues) (d : decl) :
  NoDup (decl_name <$> ds) → d ∈ ds →
  flags (add_flags ds fv) !! decl_name d = Some (flag_of_decl d).
Proof.
  revert fv. induction ds as [|d' ds IH]; intros fv Hnd Hd.
  - by apply elem_of_nil in Hd.
  - rewrite fmap_cons in Hnd. apply NoDup_cons in Hnd as [Hnotin Hnd].
    simpl. apply elem_of_cons in Hd as [->|Hd].
    + rewrite flags_add_flags_notin by done. simpl. by rewrite lookup_insert_eq.
    + by apply IH.
Qed.

Lemma short_names_add_flags_notin (ds : list decl) (fv : FlagValues) (m : string) :
  m ∉ all_names ds → short_names (add_flags ds fv) !! m = short_names fv !! m.
Proof.
  revert fv. induction ds as [|d ds IH]; intros fv Hm; [done|].
  unfold all_names in Hm. rewrite bind_cons, not_elem_of_app in Hm.
  destruct Hm as [Hd Hm]. simpl. rewrite IH by done.
  destruct d as [[[p n] v] [s|]]; unfold decl_names, decl_name in Hd; simpl in *;
    [|done].
  rewrite lookup_insert_ne; [done|set_solver].
Qed.

Lemma short_names_add_flags_in (ds : list decl) (fv : FlagValues) (d : decl) (s : string) :
  NoDup (all_names ds) → d ∈ ds → d.2 = Some s →
  short_names (add_flags ds fv) !! s = Some (decl_name d).
Proof.
  revert fv. induction ds as [|d' ds IH]; intros fv Hnd Hd Hs.
  - by apply elem_of_nil in Hd.
  - unfold all_names in Hnd. rewrite bind_cons in Hnd.
    apply NoDup_app in Hnd as (_ & Hdisj & Hnd).
    simpl. apply elem_of_cons in Hd as [<-|Hd].
    + rewrite short_names_add_flags_notin.
      * unfold add_flag. rewrite Hs. simpl. by rewrite lookup_insert_eq.
      * apply Hdisj. unfold decl_names. rewrite Hs. set_solver.
    + by apply IH.
Qed.

Lemma validators_add_flags (ds : list decl) (fv : FlagValues) :
  validators (add_flags ds fv) = validators fv.
Proof.
  revert fv. induction ds as [|d ds IH]; intros fv; [done|].
  simpl. by rewrite IH.
Qed.

Lemma set_default_Ok (name : string) (v : pyval) (fv : FlagValues) :
  is_Some (flags fv !! name) →
  set_default name v fv = (Ok tt, apply_defaults [(name, v)] fv).
Proof.
  intros [f Hf]. unfold set_default, apply_defaults. rewrite Hf. simpl.
  do 2 f_equal. f_equal.
  apply map_eq. intros m. destruct (decide (name = m)) as [<-|Hne].
  - by rewrite lookup_insert_eq, lookup_alter_eq, Hf.
  - by rewrite lookup_insert_ne, lookup_alter_ne.
Qed.

Lemma apply_defaults_cons (kv : string * pyval) (kwargs : list (string * pyval))
    (fv : FlagValues) :
  apply_defaults (kv :: kwargs) fv = apply_defaults kwargs (apply_defaults [kv] fv).
Proof. reflexivity. Qed.

Lemma dom_flags_apply_defaults (kwargs : list (string * pyval)) (fv : FlagValues) :
  dom (flags (apply_defaults kwargs fv)) =@{gset string} dom (flags fv).
Proof.
  revert fv. induction kwargs as [|kv kwargs IH]; intros fv; [done|].
  rewrite apply_defaults_cons, IH. simpl. apply dom_alter_L.
Qed.

Lemma short_names_apply_defaults (kwargs : list (string * pyval)) (fv : FlagValues) :
  short_names (apply_defaults kwargs fv) = short_names fv.
Proof.
  revert fv. induction kwargs as [|kv kwargs IH]; intros fv; [done|].
  by rewrite apply_defaults_cons, IH.
Qed.

Lemma validators_apply_defaults (kwargs : list (string * pyval)) (fv : FlagValues) :
  validators (apply_defaults kwargs fv) = validators fv.
Proof.
  revert fv. induction kwargs as [|kv kwargs IH]; intros fv; [done|].
  by rewrite apply_defaults_cons, IH.
Qed.

Lemma flags_apply_defaults_notin (kwargs : list (string * pyval)) (fv : FlagValues)
    (m : string) :
  m ∉ kwargs.*1 → flags (apply_defaults kwargs fv) !! m = flags fv !! m.
Proof.
  revert fv. induction kwargs as [|kv kwargs IH]; intros fv Hm; [done|].
  rewrite fmap_cons, not_elem_of_cons in Hm. destruct Hm as [Hne Hm].
  rewrite apply_defaults_cons, IH by done. simpl. by rewrite lookup_alter_ne.
Qed.

Lemma flags_apply_defaults_in (kwargs : list (string * pyval)) (fv : FlagValues)
    (k : string) (v : pyval) :
  NoDup kwargs.*1 → (k, v) ∈ kwargs →
  flags (apply_defaults kwargs fv) !! k = with_default v <$> flags fv !! k.
Proof.
  revert fv. induction kwargs as [|kv kwargs IH]; intros fv Hnd Hk.
  - by apply elem_of_nil in Hk.
  - rewrite fmap_cons in Hnd. apply NoDup_cons in Hnd as [Hnotin Hnd].
    rewrite apply_defaults_cons. apply elem_of_cons in Hk as [<-|Hk].
    + rewrite flags_apply_defaults_notin by done. simpl. by rewrite lookup_alter_eq.
    + rewrite IH by done. simpl. rewrite lookup_alter_ne; [done|].
      intros Heq. apply Hnotin. rewrite Heq.
      apply list_elem_of_fmap. by exists (k, v).
Qed.

Lemma set_defaults_Ok (kwargs : list (string * pyval)) (fv : FlagValues) :
  Forall (λ kv, is_Some (flags fv !! kv.1)) kwargs →
  set_defaults kwargs fv = (Ok tt, apply_defaults kwargs fv).
Proof.
  revert fv. induction kwargs as [|[k v] kwargs IH]; intros fv Hall; [done|].
  apply Forall_cons in Hall as [Hk Hall]. simpl in Hk.
  simpl set_defaults. rewrite (bind_Ok _ _ _ _ _ (set_default_Ok k v fv Hk)).
  rewrite (apply_defaults_cons (k, v) kwargs). apply IH.
  rewrite Forall_forall in Hall |- *. intros kv Hkv.
  apply elem_of_dom. rewrite dom_flags_apply_defaults.
  apply elem_of_dom. by apply Hall.
Qed.

Lemma register_Ok (v : MultiFlagsValidator) (fv : FlagValues) :
  Forall (λ n, declared fv n = true) (flag_names v) →
  register v fv = (Ok tt, add_validator v fv).
Proof.
  intros Hall. unfold register, multi_flags_validator.
  assert (list_find (λ n, declared fv n = false) (flag_names v) = None) as ->; [|done].
  apply list_find_None. eapply Forall_impl; [exact Hall|].
  intros n Hn. simpl. by rewrite Hn.
Qed.

Lemma flags_add_flags_is_Some (ds : list decl) (fv : FlagValues) (m : string) :
  is_Some (flags fv !! m) → is_Some (flags (add_flags ds fv) !! m).
Proof.
  revert fv. induction ds as [|d ds IH]; intros fv Hm; [done|].
  simpl. apply IH. simpl.
  destruct (decide (decl_name d = m)) as [<-|Hne].
  - rewrite lookup_insert_eq. by eexists.
  - by rewrite lookup_insert_ne.
Qed.

Lemma flags_apply_defaults_is_Some (kwargs : list (string * pyval)) (fv : FlagValues)
    (m : string) :
  is_Some (flags (apply_defaults kwargs fv) !! m) ↔ is_Some (flags fv !! m).
Proof.
  by rewrite <- !elem_of_dom, dom_flags_apply_defaults.
Qed.

Ltac solve_closed := apply (bool_decide_unpack _); vm_compute; exact I.

Lemma transformer_decls_default_ok :
  Forall default_ok (transformer_decls ["tiny"; "base"; "big"]).
Proof.
  unfold transformer_decls. repeat (constructor; [reflexivity|]). constructor.
Qed.

Lemma transformer_decls_NoDup :
  NoDup (all_names (transformer_decls ["tiny"; "base"; "big"])).
Proof. solve_closed. Qed.

Lemma transformer_decls_names :
  all_names (transformer_decls ["tiny"; "base"; "big"]) = transformer_flag_names.
Proof. reflexivity. Qed.

Lemma flags_add_validator (v : MultiFlagsValidator) (fv : FlagValues) :
  flags (add_validator v fv) = flags fv.
Proof. reflexivity. Qed.

Lemma register_validators_run {A} (k : M FlagValues A) (fv : FlagValues) :
  Forall (λ n, is_Some (flags fv !! n)) validated_flag_names →
  (register train_limits_validator;;
   register bleu_files_validator;;
   register bleu_vocab_file_validator;;
   register export_vocab_file_validator;; k) fv =
  k (add_validator export_vocab_file_validator
       (add_validator bleu_vocab_file_validator
          (add_validator bleu_files_validator
             (add_validator train_limits_validator fv)))).
Proof.
  intros Hall. rewrite Forall_forall in Hall.
  assert (Hreg : ∀ v fv',
    flags fv' = flags fv → flag_names v ⊆ validated_flag_names →
    register v fv' = (Ok tt, add_validator v fv')).
  { intros v fv' Hfv Hsub. apply register_Ok, Forall_forall.
    intros n Hn. apply declared_true. rewrite Hfv. by apply Hall, Hsub. }
  assert (Hsub1 : flag_names train_limits_validator ⊆ validated_flag_names)
    by solve_closed.
  assert (Hsub2 : flag_names bleu_files_validator ⊆ validated_flag_names)
    by solve_closed.
  assert (Hsub3 : flag_names bleu_vocab_file_validator ⊆ validated_flag_names)
    by solve_closed.
  assert (Hsub4 : flag_names export_vocab_file_validator ⊆ validated_flag_names)
    by solve_closed.
  rewrite (bind_Ok _ _ _ _ _ (Hreg _ fv eq_refl Hsub1)).
  rewrite (bind_Ok _ _ _ _ _ (Hreg _ (add_validator _ fv) eq_refl Hsub2)).
  rewrite (bind_Ok _ _ _ _ _
             (Hreg _ (add_validator _ (add_validator _ fv)) eq_refl Hsub3)).
  rewrite (bind_Ok _ _ _ _ _
             (Hreg _ (add_validator _ (add_validator _ (add_validator _ fv)))
                eq_refl Hsub4)).
  reflexivity.
Qed.

Lemma with_transformer_flags_validated (fv1 : FlagValues) :
  Forall (λ n, is_Some (flags fv1 !! n)) shared_flag_names →
  Forall (λ n, is_Some (flags (with_transformer_flags fv1) !! n)) validated_flag_names.
Proof.
  intros Hshared. rewrite Forall_forall in Hshared.
  assert (Hs : ∀ n, n ∈ shared_flag_names →
                    is_Some (flags (with_transformer_flags fv1) !! n)).
  { intros n Hn. by apply flags_apply_defaults_is_Some, flags_add_flags_is_Some, Hshared. }
  assert (Hd : ∀ d, d ∈ transformer_decls ["tiny"; "base"; "big"] →
                    is_Some (flags (with_transformer_flags fv1) !! decl_name d)).
  { intros d Hd. apply flags_apply_defaults_is_Some.
    rewrite flags_add_flags_in; [by eexists| |done]. solve_closed. }
  unfold validated_flag_names.
  repeat apply Forall_cons_2; try apply Forall_nil_2.
  - apply (Hd (ArgumentParser, "mode", PyStr "train", None)). solve_closed.
  - apply Hs. solve_closed.
  - apply (Hd (ArgumentParser, "bleu_source", PyNone, Some "bls")). solve_closed.
  - apply (Hd (ArgumentParser, "bleu_ref", PyNone, Some "blr")). solve_closed.
  - apply (Hd (ArgumentParser, "vocab_file", PyNone, Some "vf")). solve_closed.
  - apply Hs. solve_closed.
Qed.

Lemma interface_table_decls :
  interface_table =
    (λ d : decl, (decl_name d, d.2, d.1.1.1, d.1.2)) <$>
      transformer_decls ["tiny"; "base"; "big"].
Proof. reflexivity. Qed.

Lemma with_transformer_flags_declared_as (fv1 : FlagValues) (d : decl) :
  d ∈ transformer_decls ["tiny"; "base"; "big"] →
  declared_as (with_transformer_flags fv1) (decl_name d) d.2 d.1.1.1 d.1.2.
Proof.
  intros Hd. exists (flag_of_decl d). unfold with_transformer_flags.
  split.
  { rewrite flags_apply_defaults_notin.
    - apply flags_add_flags_in; [solve_closed|done].
    - revert d Hd. apply Forall_forall. solve_closed. }
  repeat (split; [reflexivity|]).
  intros s Hs. rewrite short_names_apply_defaults.
  by apply short_names_add_flags_in; [apply transformer_decls_NoDup| |].
Qed.

Lemma with_transformer_flags_default (fv1 : FlagValues) (k : string) (v : pyval) :
  (k, v) ∈ transformer_defaults → is_Some (flags fv1 !! k) →
  has_default (with_transformer_flags fv1) k v.
Proof.
  intros Hk [f Hf]. exists (with_default v f). split; [|done].
  unfold with_transformer_flags.
  rewrite (flags_apply_defaults_in _ _ k v); [|solve_closed|done].
  rewrite flags_add_flags_notin; [by rewrite Hf|].
  change (((k, v).1) ∉ decl_name <$> transformer_decls ["tiny"; "base"; "big"]).
  revert Hk. generalize (k, v). apply Forall_forall. solve_closed.
Qed.

Lemma declared_as_ext (fv fv' : FlagValues) (name : string) (short : option string)
    (p : parser_kind) (default : pyval) :
  flags fv = flags fv' → short_names fv = short_names fv' →
  declared_as fv' name short p default → declared_as fv name short p default.
Proof.
  intros Hf Hs (f & H). exists f. by rewrite Hf, Hs.
Qed.

Lemma has_default_ext (fv fv' : FlagValues) (name : string) (v : pyval) :
  flags fv = flags fv' → has_default fv' name v → has_default fv name v.
Proof.
  intros Hf (f & H). exists f. by rewrite Hf.
Qed.

(** ** Validation over the registry *)

Lemma input_to_checker_2 (fv : FlagValues) (k1 k2 : string) (v1 v2 : pyval) :
  has_value fv k1 v1 → has_value fv k2 v2 →
  input_to_checker [k1; k2] fv = Ok {[ k1 := v1; k2 := v2 ]}.
Proof.
  intros (f1 & H1 & <-) (f2 & H2 & <-). simpl.
  rewrite H1, result_bind_Ok, H2, result_bind_Ok. reflexivity.
Qed.

Lemma input_to_checker_3 (fv : FlagValues) (k1 k2 k3 : string) (v1 v2 v3 : pyval) :
  has_value fv k1 v1 → has_value fv k2 v2 → has_value fv k3 v3 →
  input_to_checker [k1; k2; k3] fv = Ok {[ k1 := v1; k2 := v2; k3 := v3 ]}.
Proof.
  intros (f1 & H1 & <-) (f2 & H2 & <-) (f3 & H3 & <-). simpl.
  rewrite H1, result_bind_Ok, H2, result_bind_Ok, H3, result_bind_Ok. reflexivity.
Qed.

Lemma train_limits_on_values (mode train_epochs : pyval) :
  checker train_limits_validator
    {[ "mode" := mode; "train_epochs" := train_epochs ]} =
  Ok (if eq_str mode "train" then negb (is_None train_epochs) else true).
Proof. by apply _check_train_limits_eval. Qed.

Lemma bleu_files_on_values (bleu_source bleu_ref : pyval) :
  checker bleu_files_validator
    {[ "bleu_source" := bleu_source; "bleu_ref" := bleu_ref ]} =
  Ok (Bool.eqb (is_None bleu_source) (is_None bleu_ref)).
Proof. by apply _check_bleu_files_eval. Qed.

Lemma bleu_vocab_file_on_values (bleu_source bleu_ref vocab_file : pyval) :
  checker bleu_vocab_file_validator
    {[ "bleu_source" := bleu_source; "bleu_ref" := bleu_ref;
       "vocab_file" := vocab_file ]} =
  Ok (if truthy bleu_source && truthy bleu_ref
      then negb (is_None vocab_file) else true).
Proof. by apply _check_bleu_vocab_file_eval. Qed.

Lemma export_vocab_file_on_values (export_dir vocab_file : pyval) :
  checker export_vocab_file_validator
    {[ "export_dir" := export_dir; "vocab_file" := vocab_file ]} =
  Ok (if truthy export_dir then negb (is_None vocab_file) else true).
Proof. by apply _check_export_vocab_file_eval. Qed.

Lemma verify_train_limits (fv : FlagValues) (mode train_epochs : pyval) :
  has_value fv "mode" mode → has_value fv "train_epochs" train_epochs →
  (mode = PyStr "train" → is_set train_epochs) →
  verify train_limits_validator fv = Ok tt.
Proof.
  intros Hm Ht Hcond. unfold verify. simpl flag_names.
  rewrite (input_to_checker_2 _ _ _ _ _ Hm Ht), result_bind_Ok.
  apply (check_param_Ok _ _ _ (train_limits_on_values mode train_epochs)).
  destruct (eq_str mode "train") eqn:Heq; [|done].
  apply negb_true_iff, is_None_false, Hcond. by apply eq_str_true.
Qed.

Lemma verify_bleu_files_both (fv : FlagValues) (bleu_source bleu_ref : pyval) :
  has_value fv "bleu_source" bleu_source → has_value fv "bleu_ref" bleu_ref →
  is_set bleu_source → is_set bleu_ref →
  verify bleu_files_validator fv = Ok tt.
Proof.
  intros Hs Hr Hss Hsr. unfold verify. simpl flag_names.
  rewrite (input_to_checker_2 _ _ _ _ _ Hs Hr), result_bind_Ok.
  apply (check_param_Ok _ _ _ (bleu_files_on_values bleu_source bleu_ref)).
  apply is_None_false in Hss, Hsr. by rewrite Hss, Hsr.
Qed.

Lemma verify_bleu_vocab_file_falsy (fv : FlagValues)
    (bleu_source bleu_ref vocab_file : pyval) :
  has_value fv "bleu_source" bleu_source → has_value fv "bleu_ref" bleu_ref →
  has_value fv "vocab_file" vocab_file →
  truthy bleu_source = false ∨ truthy bleu_ref = false →
  verify bleu_vocab_file_validator fv = Ok tt.
Proof.
  intros Hs Hr Hv Hfalsy. unfold verify. simpl flag_names.
  rewrite (input_to_checker_3 _ _ _ _ _ _ _ Hs Hr Hv), result_bind_Ok.
  apply (check_param_Ok _ _ _
           (bleu_vocab_file_on_values bleu_source bleu_ref vocab_file)).
  destruct Hfalsy as [->| ->]; [done|]. by destruct (truthy bleu_source).
Qed.

Lemma verify_export_vocab_file_falsy (fv : FlagValues) (export_dir vocab_file : pyval) :
  has_value fv "export_dir" export_dir → has_value fv "vocab_file" vocab_file →
  truthy export_dir = false →
  verify export_vocab_file_validator fv = Ok tt.
Proof.
  intros He Hv Hfalsy. unfold verify. simpl flag_names.
  rewrite (input_to_checker_2 _ _ _ _ _ He Hv), result_bind_Ok.
  apply (check_param_Ok _ _ _ (export_vocab_file_on_values export_dir vocab_file)).
  by rewrite Hfalsy.
Qed.

(** C9: with bleu_source and bleu_ref the empty string and vocab_file
    unset, the BLEU-files validator accepts (both paths are set) and the
    BLEU-vocab validator accepts (an empty path fails its truth test), so
    no vocabulary file is asked for. The two validators that do not read
    the BLEU paths accept as they do otherwise: the export-vocab validator
    when export_dir is unset or empty, the train-mode validator when mode
    is not "train" or train_epochs is set; then the four validators all
    accept. *)
Theorem empty_bleu_paths_accepted (fv : FlagValues) :
  has_value fv "bleu_source" (PyStr "") →
  has_value fv "bleu_ref" (PyStr "") →
  has_value fv "vocab_file" PyNone →
  verify bleu_files_validator fv = Ok tt ∧
  verify bleu_vocab_file_validator fv = Ok tt ∧
  ∀ export_dir mode train_epochs,
    has_value fv "export_dir" export_dir → truthy export_dir = false →
    has_value fv "mode" mode → has_value fv "train_epochs" train_epochs →
    (mode = PyStr "train" → is_set train_epochs) →
    verify export_vocab_file_validator fv = Ok tt ∧
    verify train_limits_validator fv = Ok tt ∧
    verify_all [ train_limits_validator; bleu_files_validator;
                 bleu_vocab_file_validator; export_vocab_file_validator ] fv = Ok tt.
Proof.
  intros Hs Hr Hv.
  assert (Hfiles : verify bleu_files_validator fv = Ok tt)
    by (by apply (verify_bleu_files_both fv (PyStr "") (PyStr ""))).
  assert (Hvocab : verify bleu_vocab_file_validator fv = Ok tt)
    by (apply (verify_bleu_vocab_file_falsy fv (PyStr "") (PyStr "") PyNone);
        auto).
  split; [done|]. split; [done|].
  intros export_dir mode train_epochs He Hfalsy Hm Ht Hcond.
  assert (Hexport : verify export_vocab_file_validator fv = Ok tt)
    by (by apply (verify_export_vocab_file_falsy fv export_dir PyNone)).
  assert (Htrain : verify train_limits_validator fv = Ok tt)
    by (by apply (verify_train_limits fv mode train_epochs)).
  split; [done|]. split; [done|].
  simpl. by rewrite Htrain, Hfiles, Hvocab, Hexport.
Qed.

(** An enum flag takes its enum values and nothing else. *)
Lemma enum_parser_restricts (boolean_parse integer_parse : string → result pyval)
    (enum_values : list string) (argument : string) :
  (argument ∈ enum_values →
     parser_parse boolean_parse integer_parse (EnumParser enum_values) argument =
       Ok (PyStr argument)) ∧
  (argument ∉ enum_values →
     ∃ msg,
       parser_parse boolean_parse integer_parse (EnumParser enum_values) argument =
         Raise (ValueError msg)).
Proof.
  split; intros H; simpl.
  - by rewrite bool_decide_eq_true_2.
  - rewrite bool_decide_eq_false_2 by done. by eexists.
Qed.

Lemma lookup_flag_Some (fv : FlagValues) (n : string) (f : Flag) :
  flags fv !! n = Some f → lookup_flag fv n = Ok f.
Proof. intros H. unfold lookup_flag. by rewrite H. Qed.

Section flags_spec.
Variable define_base : M FlagValues unit.
Variable define_performance : list (string * bool) → M FlagValues unit.
Variable define_benchmark : M FlagValues unit.
Variable define_device : list (string * bool) → M FlagValues unit.
Variable require_cloud_storage : list string → M FlagValues unit.
Variable BooleanParser_parse : string → result pyval.
Variable IntegerParser_parse : string → result pyval.
Variable model_params : model_params_module.

Variables fv0 fv1 : FlagValues.

Hypothesis Hready :
  shared_flags_ready define_base define_performance define_benchmark
    define_device require_cloud_storage fv0 fv1.

(** [define_transformer_flags] runs through: its flags are the
    declarations added to the shared flags, with the new defaults; the
    four validators follow those of the shared flags. *)
Lemma define_transformer_flags_run :
  ∃ fv (vs : list MultiFlagsValidator),
    define_transformer_flags define_base define_performance define_benchmark
      define_device require_cloud_storage model_params fv0 = (Ok tt, fv) ∧
    flags fv = flags (with_transformer_flags fv1) ∧
    short_names fv = short_names (with_transformer_flags fv1) ∧
    validators fv =
      (validators fv1 ++
         [ train_limits_validator; bleu_files_validator;
           bleu_vocab_file_validator; export_vocab_file_validator ] ++ vs)%list.
Proof.
  pose proof Hready as ((fva & fvb & fvc & Hb & Hp & Hbm & Hd) & Hshared & Hfree & Hcloud).
  assert (Hrun : ∀ r,
    define_seq (transformer_decls ["tiny"; "base"; "big"])
      (set_defaults transformer_defaults;;
       register train_limits_validator;;
       register bleu_files_validator;;
       register bleu_vocab_file_validator;;
       register export_vocab_file_validator;;
       require_cloud_storage ["data_dir"; "model_dir"; "export_dir"]) fv1 = r →
    define_transformer_flags define_base define_performance define_benchmark
      define_device require_cloud_storage model_params fv0 = r).
  { intros r <-. unfold define_transformer_flags.
    rewrite (bind_Ok _ _ _ _ _ Hb), (bind_Ok _ _ _ _ _ Hp),
      (bind_Ok _ _ _ _ _ Hbm), (bind_Ok _ _ _ _ _ Hd).
    reflexivity. }
  assert (Hkeys : Forall (λ kv : string * pyval,
            is_Some (flags (add_flags (transformer_decls ["tiny"; "base"; "big"]) fv1)
                       !! kv.1)) transformer_defaults).
  { rewrite Forall_forall in Hshared.
    repeat apply Forall_cons_2; try apply Forall_nil_2;
      apply flags_add_flags_is_Some, Hshared; solve_closed. }
  pose proof (with_transformer_flags_validated fv1 Hshared) as Hval.
  assert (Hdom : dom (flags fv1) ⊆@{gset string} dom (flags (with_transformer_flags fv1))).
  { unfold with_transformer_flags. rewrite dom_flags_apply_defaults.
    intros n Hn. apply elem_of_dom. apply flags_add_flags_is_Some.
    by apply elem_of_dom. }
  assert (Hvals : validators (with_transformer_flags fv1) = validators fv1).
  { unfold with_transformer_flags.
    by rewrite validators_apply_defaults, validators_add_flags. }
  assert (Hstep : define_seq (transformer_decls ["tiny"; "base"; "big"])
      (set_defaults transformer_defaults;;
       register train_limits_validator;;
       register bleu_files_validator;;
       register bleu_vocab_file_validator;;
       register export_vocab_file_validator;;
       require_cloud_storage ["data_dir"; "model_dir"; "export_dir"]) fv1 =
    (register train_limits_validator;;
       register bleu_files_validator;;
       register bleu_vocab_file_validator;;
       register export_vocab_file_validator;;
       require_cloud_storage ["data_dir"; "model_dir"; "export_dir"])
      (with_transformer_flags fv1)).
  { rewrite define_seq_Ok;
      [|apply transformer_decls_default_ok|apply transformer_decls_NoDup
       |by rewrite transformer_decls_names].
    by rewrite (bind_Ok _ _ _ _ _ (set_defaults_Ok transformer_defaults _ Hkeys)). }
  revert Hstep Hval Hdom Hvals.
  generalize (with_transformer_flags fv1). intros W Hstep Hval Hdom Hvals.
  rewrite register_validators_run in Hstep by done.
  destruct (Hcloud (add_validator export_vocab_file_validator
                      (add_validator bleu_vocab_file_validator
                         (add_validator bleu_files_validator
                            (add_validator train_limits_validator W)))))
    as (fv' & vs & Hcall & Hfl & Hsn & Hvs); [done|].
  exists fv', vs. split.
  { apply Hrun. by rewrite Hstep. }
  split; [done|]. split; [done|].
  rewrite Hvs. unfold add_validator. simpl validators. rewrite Hvals.
  by rewrite <- !app_assoc.
Qed.

(** C8: [define_transformer_flags] runs through and leaves every flag
    of the interface table declared with the short alias, the type and
    the default of the table, holding that default; param_set is an
    enum over tiny, base and big. The shared flags data_dir, model_dir,
    batch_size and train_epochs have the new defaults: batch_size none,
    train_epochs 10. *)
Theorem define_transformer_flags_declares :
  ∃ fv,
    define_transformer_flags define_base define_performance define_benchmark
      define_device require_cloud_storage model_params fv0 = (Ok tt, fv) ∧
    Forall (λ row, declared_as fv row.1.1.1 row.1.1.2 row.1.2 row.2)
      interface_table ∧
    has_default fv "data_dir" (PyStr "/tmp/translate_ende") ∧
    has_default fv "model_dir" (PyStr "/tmp/transformer_model") ∧
    has_default fv "batch_size" PyNone ∧
    has_default fv "train_epochs" (PyInt 10).
Proof.
  destruct define_transformer_flags_run as (fv & vs & Hrun & Hfl & Hsn & _).
  pose proof Hready as (_ & Hshared & _). rewrite Forall_forall in Hshared.
  exists fv. split; [done|]. split.
  { rewrite interface_table_decls, Forall_fmap. apply Forall_forall.
    intros d Hd. simpl.
    apply (declared_as_ext _ _ _ _ _ _ Hfl Hsn).
    by apply with_transformer_flags_declared_as. }
  repeat split; apply (has_default_ext _ _ _ _ Hfl);
    (apply with_transformer_flags_default; [|apply Hshared]); solve_closed.
Qed.

(** C10: mode is declared as a plain string flag, with no enumeration:
    any argument other than "train" (so "bogus" as well) is parsed and
    becomes the value of the flag, and the train-mode validator then
    accepts, on the registry as it stands and on any registry or values
    with that mode, whatever train_epochs holds, None included. *)
Theorem mode_is_unrestricted_string (m : string) :
  m ≠ "train" →
  ∃ fv fv',
    define_transformer_flags define_base define_performance define_benchmark
      define_device require_cloud_storage model_params fv0 = (Ok tt, fv) ∧
    (∃ f, flags fv !! "mode" = Some f ∧ flag_parser f = ArgumentParser) ∧
    parse_argument BooleanParser_parse IntegerParser_parse "mode" m fv = (Ok tt, fv') ∧
    has_value fv' "mode" (PyStr m) ∧
    verify train_limits_validator fv' = Ok tt ∧
    (∀ fv'' train_epochs,
       has_value fv'' "mode" (PyStr m) →
       has_value fv'' "train_epochs" train_epochs →
       verify train_limits_validator fv'' = Ok tt) ∧
    accepts train_limits_validator
      {[ "mode" := PyStr m; "train_epochs" := PyNone ]}.
Proof.
  intros Hm.
  assert (Hcond : ∀ te, PyStr m = PyStr "train" → is_set te)
    by (intros te [= ->]; done).
  destruct define_transformer_flags_run as (fv & vs & Hrun & Hfl & Hsn & _).
  pose proof Hready as (_ & Hshared & _). rewrite Forall_forall in Hshared.
  destruct (with_transformer_flags_declared_as fv1
              (ArgumentParser, "mode", PyStr "train", None))
    as (f & Hf & Hname & _ & Hparser & _); [solve_closed|].
  destruct (with_transformer_flags_default fv1 "train_epochs" (PyInt 10))
    as (fe & Hfe & _); [solve_closed|apply Hshared; solve_closed|].
  rewrite <- Hfl in Hf, Hfe.
  change (flags fv !! "mode" = Some f) in Hf.
  change (flag_name f = "mode") in Hname.
  change (flag_parser f = ArgumentParser) in Hparser.
  eexists fv, _. split; [done|].
  split; [by exists f|].
  split.
  { unfold parse_argument. rewrite (lookup_flag_Some _ _ _ Hf).
    unfold Flag_parse. rewrite Hparser, Hname. simpl. reflexivity. }
  assert (Hmode : has_value
            {| flags := <["mode" :=
                 {| flag_name := "mode";
                    flag_short_name := flag_short_name f;
                    flag_parser := ArgumentParser;
                    flag_default := flag_default f;
                    flag_value := PyStr m;
                    flag_using_default_value := false |}]> (flags fv);
               short_names := short_names fv;
               validators := validators fv |} "mode" (PyStr m)).
  { eexists. split; [apply lookup_flag_Some; simpl; apply lookup_insert_eq|].
    reflexivity. }
  split; [done|].
  split.
  { apply (verify_train_limits _ (PyStr m) (flag_value fe)); [done| |by apply Hcond].
    exists fe. split; [|done]. apply lookup_flag_Some. simpl.
    by rewrite lookup_insert_ne. }
  split.
  { intros fv'' te Hmode' Hte.
    by apply (verify_train_limits _ (PyStr m) te); [| |apply Hcond]. }
  apply (check_param_Ok _ _ _ (train_limits_on_values (PyStr m) PyNone)).
  simpl. by rewrite bool_decide_eq_false_2.
Qed.

End flags_spec.

(** ** The statements on the sample registry *)

Lemma multi_flags_validator_Ok (names : list string) (msg : string)
    (check : gmap string pyval → result bool) (fv : FlagValues) :
  Forall (λ n, is_Some (flags fv !! n)) names →
  ∃ fv',
    multi_flags_validator names msg check fv = (Ok tt, fv') ∧
    flags fv' = flags fv ∧ short_names fv' = short_names fv ∧
    validators fv' =
      (validators fv ++
         [ {| flag_names := names; message := msg; checker := check |} ])%list.
Proof.
  intros Hall. unfold multi_flags_validator.
  assert (list_find (λ n, declared fv n = false) names = None) as ->.
  { apply list_find_None. eapply Forall_impl; [exact Hall|].
    intros n Hn. simpl. by rewrite declared_true. }
  by eexists.
Qed.

Lemma sample_shared_flags_ready :
  shared_flags_ready sample_define_base sample_define_performance
    sample_define_benchmark sample_define_device sample_require_cloud_storage
    empty_registry sample_shared_registry.
Proof.
  split; [|split; [|split]].
  - exists (add_flags sample_base_decls empty_registry),
      (add_flags sample_base_decls empty_registry),
      (add_flags sample_base_decls empty_registry).
    split; [|split; [done|split; [done|]]].
    + unfold sample_define_base. rewrite define_seq_Ok; [done|..].
      * unfold sample_base_decls. repeat (constructor; [reflexivity|]). constructor.
      * solve_closed.
      * solve_closed.
    + unfold sample_define_device. rewrite define_seq_Ok.
      * unfold sample_shared_registry, add_flags. by rewrite foldl_app.
      * repeat (constructor; [reflexivity|]). constructor.
      * solve_closed.
      * solve_closed.
  - solve_closed.
  - solve_closed.
  - intros fv Hdom.
    destruct (multi_flags_validator_Ok
                ["tpu"; "data_dir"; "model_dir"; "export_dir"]
                "TPU requires GCS path" (λ _, Ok true) fv)
      as (fv' & Hrun & Hfl & Hsn & Hvs).
    + apply Forall_forall. intros n Hn. apply elem_of_dom, Hdom.
      revert n Hn. apply Forall_forall. solve_closed.
    + by exists fv', [ {| flag_names := ["tpu"; "data_dir"; "model_dir"; "export_dir"];
                          message := "TPU requires GCS path";
                          checker := λ _, Ok true |} ].
Qed.

(** C8 on the sample registry. *)
Lemma define_transformer_flags_declares_witness :
  ∃ fv,
    define_transformer_flags sample_define_base sample_define_performance
      sample_define_benchmark sample_define_device sample_require_cloud_storage
      sample_model_params empty_registry = (Ok tt, fv) ∧
    Forall (λ row, declared_as fv row.1.1.1 row.1.1.2 row.1.2 row.2)
      interface_table ∧
    has_default fv "data_dir" (PyStr "/tmp/translate_ende") ∧
    has_default fv "model_dir" (PyStr "/tmp/transformer_model") ∧
    has_default fv "batch_size" PyNone ∧
    has_default fv "train_epochs" (PyInt 10).
Proof.
  exact (define_transformer_flags_declares _ _ _ _ _ sample_model_params _ _
           sample_shared_flags_ready).
Defined.

Lemma sample_has_value (name : string) (v : pyval) (f : Flag) :
  lookup_flag sample_empty_bleu_registry name = Ok f → flag_value f = v →
  has_value sample_empty_bleu_registry name v.
Proof. intros H1 H2. by exists f. Defined.

(** C9 on the sample registry: with the other flags at their defaults the
    four validators all accept. *)
Lemma empty_bleu_paths_accepted_witness :
  verify_all [ train_limits_validator; bleu_files_validator;
               bleu_vocab_file_validator; export_vocab_file_validator ]
    sample_empty_bleu_registry = Ok tt.
Proof.
  refine (proj2 (proj2 (proj2 (proj2
    (empty_bleu_paths_accepted sample_empty_bleu_registry _ _ _))
      PyNone (PyStr "train") (PyInt 10) _ _ _ _ _))).
  - eapply sample_has_value; [vm_compute; reflexivity|reflexivity].
  - eapply sample_has_value; [vm_compute; reflexivity|reflexivity].
  - eapply sample_has_value; [vm_compute; reflexivity|reflexivity].
  - eapply sample_has_value; [vm_compute; reflexivity|reflexivity].
  - reflexivity.
  - eapply sample_has_value; [vm_compute; reflexivity|reflexivity].
  - eapply sample_has_value; [vm_compute; reflexivity|reflexivity].
  - intros _. discriminate.
Defined.

(** C10 on the sample registry: the argument "bogus". *)
Lemma mode_is_unrestricted_string_witness :
  ∃ fv fv',
    define_transformer_flags sample_define_base sample_define_performance
      sample_define_benchmark sample_define_device sample_require_cloud_storage
      sample_model_params empty_registry = (Ok tt, fv) ∧
    (∃ f, flags fv !! "mode" = Some f ∧ flag_parser f = ArgumentParser) ∧
    parse_argument sample_BooleanParser_parse sample_IntegerParser_parse
      "mode" "bogus" fv = (Ok tt, fv') ∧
    has_value fv' "mode" (PyStr "bogus") ∧
    verify train_limits_validator fv' = Ok tt ∧
    (∀ fv'' train_epochs,
       has_value fv'' "mode" (PyStr "bogus") →
       has_value fv'' "train_epochs" train_epochs →
       verify train_limits_validator fv'' = Ok tt) ∧
    accepts train_limits_validator
      {[ "mode" := PyStr "bogus"; "train_epochs" := PyNone ]}.
Proof.
  refine (mode_is_unrestricted_string _ _ _ _ _
            sample_BooleanParser_parse sample_IntegerParser_parse
            sample_model_params _ _ sample_shared_flags_ready "bogus" _).
  discriminate.
Defined.

(** * Further properties *)

(** ** The resolver: which calls succeed *)

Lemma dict_copy_returns {V} (src : loc) (h : gmap loc (gmap string V)) :
  is_Some (h !! src) → ∃ l h1, dict_copy src h = (Ok l, h1).
Proof.
  intros [d Hd]. unfold dict_copy. rewrite Hd. by eexists _, _.
Qed.

Lemma get_model_params_Ok_iff {V} (model_params : model_params_module)
    (h : gmap loc (gmap string V)) (param_set : string) (num_gpus : Z) :
  model_params_loaded model_params h →
  ((∃ l h1, get_model_params model_params param_set num_gpus h = (Ok l, h1)) ↔
     param_set = "big" ∨ param_set = "base" ∨
     (param_set = "tiny" ∧ (num_gpus ≤ 1)%Z)).
Proof.
  intros Hh.
  assert (Hcopy : ∀ src, src ∈ stored_records model_params →
            ∃ l h1, dict_copy src h = (Ok l, h1)).
  { intros src Hsrc. by apply dict_copy_returns, (loaded_lookup model_params). }
  unfold get_model_params. case_bool_decide as Hn.
  - case_bool_decide as Hbig; [|case_bool_decide as Hbase].
    + split; [tauto|]. intros _. apply Hcopy. unfold stored_records. repeat constructor.
    + split; [tauto|]. intros _. apply Hcopy. unfold stored_records. repeat constructor.
    + split; [by intros (l & h1 & ?)|]. intros [?|[?|[_ ?]]]; [done|done|lia].
  - destruct (PARAMS_MAP model_params !! param_set) as [src|] eqn:Hsrc.
    + pose proof (PARAMS_MAP_stored _ _ _ Hsrc) as Hin.
      split; [|intros _; by apply Hcopy].
      intros _. apply PARAMS_MAP_lookup_Some in Hsrc as [[-> _]|[[-> _]|[-> _]]].
      * right. right. split; [done|lia].
      * tauto.
      * tauto.
    + split; [by intros (l & h1 & ?)|].
      intros Hps. exfalso.
      assert (is_Some (PARAMS_MAP model_params !! param_set)) as [? Heq];
        [|by rewrite Heq in Hsrc].
      destruct Hps as [->|[->|[-> _]]]; by eexists.
Qed.

Lemma get_model_params_Raise_inv {V} (model_params : model_params_module)
    (h h1 : gmap loc (gmap string V)) (param_set : string) (num_gpus : Z) (e : exn) :
  model_params_loaded model_params h →
  get_model_params model_params param_set num_gpus h = (Raise e, h1) →
  h1 = h ∧
  ((1 < num_gpus)%Z ∧ e = ValueError (not_valid_params param_set num_gpus) ∨
   (num_gpus ≤ 1)%Z ∧ e = KeyError param_set).
Proof.
  intros Hh.
  assert (Hcopy : ∀ src, src ∈ stored_records model_params →
            dict_copy src h = (Raise e, h1) → False).
  { intros src Hsrc Hr.
    destruct (dict_copy_returns src h (loaded_lookup model_params h src Hh Hsrc))
      as (l & h2 & Hok). by rewrite Hok in Hr. }
  unfold get_model_params. case_bool_decide as Hn.
  - case_bool_decide as Hbig; [|case_bool_decide as Hbase].
    + intros Hr. exfalso. eapply Hcopy; [|exact Hr].
      unfold stored_records. repeat constructor.
    + intros Hr. exfalso. eapply Hcopy; [|exact Hr].
      unfold stored_records. repeat constructor.
    + intros [= <- <-]. split; [done|]. by left.
  - destruct (PARAMS_MAP model_params !! param_set) as [src|] eqn:Hsrc.
    + intros Hr. exfalso. eapply Hcopy; [|exact Hr]. by eapply PARAMS_MAP_stored.
    + intros [= <- <-]. split; [done|]. right. split; [lia|done].
Qed.

(** X1: on a store that holds the records, a call succeeds exactly for
    "big" and "base" with any device count and for "tiny" with at most one
    device. A call that fails leaves the store as it was, and the kind of
    error goes with the device count: ValueError with more than one device,
    KeyError otherwise. *)
Theorem get_model_params_succeeds_iff {V} (model_params : model_params_module)
    (h : gmap loc (gmap string V)) (param_set : string) (num_gpus : Z) :
  model_params_loaded model_params h →
  ((∃ l h1, get_model_params model_params param_set num_gpus h = (Ok l, h1)) ↔
     param_set = "big" ∨ param_set = "base" ∨
     (param_set = "tiny" ∧ (num_gpus ≤ 1)%Z)) ∧
  (∀ e h1,
     get_model_params model_params param_set num_gpus h = (Raise e, h1) →
     h1 = h ∧
     ((1 < num_gpus)%Z ∧ e = ValueError (not_valid_params param_set num_gpus) ∨
      (num_gpus ≤ 1)%Z ∧ e = KeyError param_set)).
Proof.
  intros Hh. split.
  - by apply get_model_params_Ok_iff.
  - intros e h1. by apply get_model_params_Raise_inv.
Qed.

(** X1 on the sample store: "tiny" with two devices. *)
Lemma get_model_params_succeeds_iff_witness :
  ((∃ l h1, get_model_params sample_model_params "tiny" 2 sample_store = (Ok l, h1)) ↔
     "tiny" = "big" ∨ "tiny" = "base" ∨ ("tiny" = "tiny" ∧ (2 ≤ 1)%Z)) ∧
  (∀ e h1,
    get_model_params sample_model_params "tiny" 2 sample_store = (Raise e, h1) →
    h1 = sample_store ∧
    ((1 < 2)%Z ∧ e = ValueError (not_valid_params "tiny" 2) ∨
     (2 ≤ 1)%Z ∧ e = KeyError "tiny")).
Proof.
  exact (get_model_params_succeeds_iff sample_model_params sample_store
           "tiny" 2 sample_store_loaded).
Defined.

(** X2: the values the param_set flag takes are the names the resolver
    knows. An argument the enum parser of the flag accepts is a key of
    PARAMS_MAP: with at most one device the resolver returns for it, and
    with more than one device it returns for every accepted value but
    "tiny". *)
Theorem param_set_values_resolve {V} (model_params : model_params_module)
    (boolean_parse integer_parse : string → result pyval)
    (h : gmap loc (gmap string V)) (argument : string) (v : pyval) (num_gpus : Z) :
  model_params_loaded model_params h →
  parser_parse boolean_parse integer_parse
    (EnumParser (PARAMS_MAP_keys model_params)) argument = Ok v →
  v = PyStr argument ∧
  is_Some (PARAMS_MAP model_params !! argument) ∧
  ((num_gpus ≤ 1)%Z →
     ∃ l h1, get_model_params model_params argument num_gpus h = (Ok l, h1)) ∧
  ((1 < num_gpus)%Z →
     ((∃ l h1, get_model_params model_params argument num_gpus h = (Ok l, h1)) ↔
      argument ≠ "tiny")).
Proof.
  intros Hh Hparse. simpl in Hparse.
  case_bool_decide as Hin; [|done]. injection Hparse as <-.
  assert (Hname : argument = "tiny" ∨ argument = "base" ∨ argument = "big").
  { unfold PARAMS_MAP_keys, PARAMS_MAP_items in Hin. simpl in Hin.
    rewrite !elem_of_cons, elem_of_nil in Hin. tauto. }
  pose proof (get_model_params_Ok_iff model_params h argument num_gpus Hh)
    as Hiff.
  split; [done|]. split.
  { destruct Hname as [-> | [-> | ->]]; by eexists. }
  split.
  - intros Hn. apply Hiff. destruct Hname as [-> | [-> | ->]]; tauto.
  - intros Hn. rewrite Hiff. split.
    + intros [?|[?|[_ ?]]]; [by subst|by subst|lia].
    + intros Hne. destruct Hname as [? | [? | ?]]; tauto.
Qed.

(** X2 on the sample store: the default "big" of the flag, with four
    devices. *)
Lemma param_set_values_resolve_witness :
  PyStr "big" = PyStr "big" ∧
  is_Some (PARAMS_MAP sample_model_params !! "big") ∧
  ((4 ≤ 1)%Z →
     ∃ l h1, get_model_params sample_model_params "big" 4 sample_store = (Ok l, h1)) ∧
  ((1 < 4)%Z →
     ((∃ l h1, get_model_params sample_model_params "big" 4 sample_store = (Ok l, h1)) ↔
      "big" ≠ "tiny")).
Proof.
  exact (param_set_values_resolve sample_model_params
           sample_BooleanParser_parse sample_IntegerParser_parse
           sample_store "big" (PyStr "big") 4 sample_store_loaded eq_refl).
Defined.

(** ** The validators: what a run can end in *)

Lemma check_param_outcome (v : MultiFlagsValidator) (d : gmap string pyval) (b : bool) :
  checker v d = Ok b →
  check_param v d = Ok tt ∨ check_param v d = Raise (ValidationError (message v)).
Proof.
  intros H. destruct (check_param_Ok v d b H) as [Hacc Hrej].
  destruct b; [left; by apply Hacc|right; by apply Hrej].
Qed.

(** X3: each of the four checkers reads only the flags its decorator
    lists. On a registry that declares the flags a validator lists, running
    the validator ends in acceptance or in a ValidationError with the
    validator's own message, never in a KeyError or another error. *)
Theorem verify_accepts_or_rejects (v : MultiFlagsValidator) (fv : FlagValues) :
  v ∈ [ train_limits_validator; bleu_files_validator;
        bleu_vocab_file_validator; export_vocab_file_validator ] →
  Forall (λ n, ∃ f, lookup_flag fv n = Ok f) (flag_names v) →
  verify v fv = Ok tt ∨ verify v fv = Raise (ValidationError (message v)).
Proof.
  intros Hv Hdecl.
  assert (Hval : ∀ n, n ∈ flag_names v → ∃ x, has_value fv n x).
  { intros n Hn. rewrite Forall_forall in Hdecl.
    destruct (Hdecl n Hn) as [f Hf]. by exists (flag_value f), f. }
  rewrite !elem_of_cons, elem_of_nil in Hv.
  destruct Hv as [-> | [-> | [-> | [-> | []]]]]; unfold verify; simpl flag_names in *.
  - destruct (Hval "mode") as [m Hm]; [repeat constructor|].
    destruct (Hval "train_epochs") as [te Hte]; [repeat constructor|].
    rewrite (input_to_checker_2 _ _ _ _ _ Hm Hte), result_bind_Ok.
    eapply check_param_outcome, train_limits_on_values.
  - destruct (Hval "bleu_source") as [s Hs]; [repeat constructor|].
    destruct (Hval "bleu_ref") as [r Hr]; [repeat constructor|].
    rewrite (input_to_checker_2 _ _ _ _ _ Hs Hr), result_bind_Ok.
    eapply check_param_outcome, bleu_files_on_values.
  - destruct (Hval "bleu_source") as [s Hs]; [repeat constructor|].
    destruct (Hval "bleu_ref") as [r Hr]; [repeat constructor|].
    destruct (Hval "vocab_file") as [vf Hvf]; [repeat constructor|].
    rewrite (input_to_checker_3 _ _ _ _ _ _ _ Hs Hr Hvf), result_bind_Ok.
    eapply check_param_outcome, bleu_vocab_file_on_values.
  - destruct (Hval "export_dir") as [e He]; [repeat constructor|].
    destruct (Hval "vocab_file") as [vf Hvf]; [repeat constructor|].
    rewrite (input_to_checker_2 _ _ _ _ _ He Hvf), result_bind_Ok.
    eapply check_param_outcome, export_vocab_file_on_values.
Qed.

Lemma sample_lookup_flag (name : string) (f : Flag) :
  lookup_flag sample_empty_bleu_registry name = Ok f →
  ∃ f, lookup_flag sample_empty_bleu_registry name = Ok f.
Proof. intros H. by exists f. Defined.

(** X3 on the sample registry: the BLEU-vocab validator. *)
Lemma verify_accepts_or_rejects_witness :
  verify bleu_vocab_file_validator sample_empty_bleu_registry = Ok tt ∨
  verify bleu_vocab_file_validator sample_empty_bleu_registry =
    Raise (ValidationError (message bleu_vocab_file_validator)).
Proof.
  apply (verify_accepts_or_rejects bleu_vocab_file_validator sample_empty_bleu_registry).
  - apply list_elem_of_further, list_elem_of_further, list_elem_of_here.
  - repeat (constructor; [eapply sample_lookup_flag; vm_compute; reflexivity|]).
    constructor.
Defined.

(** A flag that is missing from the registry does end a run in a
    KeyError: the check above needs its hypothesis. *)
Example verify_undeclared_flag :
  verify export_vocab_file_validator empty_registry = Raise (KeyError "export_dir").
Proof. reflexivity. Qed.

(** X4: vocab_file is tested against None only, so the empty string
    counts as a vocabulary file: whatever the BLEU paths and export_dir
    hold, both vocab validators accept once vocab_file is a string, the
    empty one included. *)
Theorem vocab_file_string_accepted (bleu_source bleu_ref export_dir : pyval) (s : string) :
  accepts bleu_vocab_file_validator
    {[ "bleu_source" := bleu_source; "bleu_ref" := bleu_ref;
       "vocab_file" := PyStr s ]} ∧
  accepts export_vocab_file_validator
    {[ "export_dir" := export_dir; "vocab_file" := PyStr s ]}.
Proof.
  split.
  - apply (check_param_Ok _ _ _
             (bleu_vocab_file_on_values bleu_source bleu_ref (PyStr s))).
    by destruct (truthy bleu_source && truthy bleu_ref).
  - apply (check_param_Ok _ _ _ (export_vocab_file_on_values export_dir (PyStr s))).
    by destruct (truthy export_dir).
Qed.

(** ** The registry after [define_transformer_flags] *)

Lemma has_value_flags (fv : FlagValues) (n : string) (f : Flag) :
  flags fv !! n = Some f → has_value fv n (flag_value f).
Proof. intros H. exists f. split; [by apply lookup_flag_Some|done]. Qed.

Lemma transformer_names_cover (n : string) :
  n ∉ transformer_flag_names →
  n ∉ decl_name <$> transformer_decls ["tiny"; "base"; "big"].
Proof.
  intros Hn Hin. apply Hn. clear Hn. revert n Hin. apply Forall_forall. solve_closed.
Qed.

Lemma alias_not_a_name (d : decl) (s : string) :
  d ∈ transformer_decls ["tiny"; "base"; "big"] → d.2 = Some s →
  (s ∉ decl_name <$> transformer_decls ["tiny"; "base"; "big"]) ∧
  (s ∉ transformer_defaults.*1).
Proof.
  intros Hd Hs.
  assert (Hall : Forall (λ d : decl, ∀ s, d.2 = Some s →
            (s ∉ decl_name <$> transformer_decls ["tiny"; "base"; "big"]) ∧
            (s ∉ transformer_defaults.*1))
          (transformer_decls ["tiny"; "base"; "big"])).
  { unfold transformer_decls at 2.
    repeat apply Forall_cons_2; try apply Forall_nil_2;
      intros s' [= <-]; split; solve_closed. }
  rewrite Forall_forall in Hall. by apply (Hall d).
Qed.

Lemma with_transformer_flags_other (fv1 : FlagValues) (n : string) :
  n ∉ transformer_flag_names → n ∉ transformer_defaults.*1 →
  flags (with_transformer_flags fv1) !! n = flags fv1 !! n.
Proof.
  intros Hn Hd. unfold with_transformer_flags.
  rewrite flags_apply_defaults_notin by done.
  by apply flags_add_flags_notin, transformer_names_cover.
Qed.

Lemma with_transformer_flags_short_other (fv1 : FlagValues) (n : string) :
  n ∉ transformer_flag_names →
  short_names (with_transformer_flags fv1) !! n = short_names fv1 !! n.
Proof.
  intros Hn. unfold with_transformer_flags.
  rewrite short_names_apply_defaults.
  apply short_names_add_flags_notin. by rewrite transformer_decls_names.
Qed.

Lemma with_transformer_flags_shared (fv1 : FlagValues) (k : string) (v : pyval) (f : Flag) :
  (k, v) ∈ transformer_defaults → flags fv1 !! k = Some f →
  flags (with_transformer_flags fv1) !! k = Some (with_default v f).
Proof.
  intros Hk Hf. unfold with_transformer_flags.
  rewrite (flags_apply_defaults_in _ _ k v); [|solve_closed|done].
  rewrite flags_add_flags_notin; [by rewrite Hf|].
  change (((k, v).1) ∉ decl_name <$> transformer_decls ["tiny"; "base"; "big"]).
  revert Hk. generalize (k, v). apply Forall_forall. solve_closed.
Qed.

Lemma verify_all_Forall (vs : list MultiFlagsValidator) (fv : FlagValues) :
  verify_all vs fv = Ok tt ↔ Forall (λ v, verify v fv = Ok tt) vs.
Proof.
  induction vs as [|v vs IH]; simpl.
  - split; [by constructor|done].
  - rewrite Forall_cons, <- IH. unfold mbind, result_mbind, result_bind.
    destruct (verify v fv) as [[]|e].
    + split; [intros H; by split|by intros [_ ?]].
    + split; [done|by intros [? _]].
Qed.

Lemma parse_argument_alias (boolean_parse integer_parse : string → result pyval)
    (fv : FlagValues) (s name argument : string) (f : Flag) :
  flags fv !! s = None → short_names fv !! s = Some name →
  flags fv !! name = Some f →
  parse_argument boolean_parse integer_parse s argument fv =
  parse_argument boolean_parse integer_parse name argument fv.
Proof.
  intros Hs Hshort Hname. unfold parse_argument, lookup_flag.
  by rewrite Hs, Hshort, Hname.
Qed.

Lemma parse_argument_string (boolean_parse integer_parse : string → result pyval)
    (fv : FlagValues) (name argument : string) (f : Flag) :
  flags fv !! name = Some f → flag_name f = name → flag_parser f = ArgumentParser →
  ∃ fv' f',
    parse_argument boolean_parse integer_parse name argument fv = (Ok tt, fv') ∧
    flags fv' = <[name := f']> (flags fv) ∧
    short_names fv' = short_names fv ∧ validators fv' = validators fv ∧
    flag_name f' = name ∧ flag_parser f' = ArgumentParser ∧
    flag_value f' = PyStr argument.
Proof.
  intros Hf Hname Hparser. unfold parse_argument.
  rewrite (lookup_flag_Some _ _ _ Hf). unfold Flag_parse.
  rewrite Hparser, Hname. simpl. by eexists _, _.
Qed.

Lemma has_value_insert (fv fv' : FlagValues) (name : string) (f' : Flag) :
  flags fv' = <[name := f']> (flags fv) →
  has_value fv' name (flag_value f') ∧
  ∀ n f, n ≠ name → flags fv !! n = Some f → flags fv' !! n = Some f.
Proof.
  intros Hfl. split.
  - apply has_value_flags. by rewrite Hfl, lookup_insert_eq.
  - intros n f Hn Hf. by rewrite Hfl, lookup_insert_ne.
Qed.

Lemma verify_bleu_files (fv : FlagValues) (bleu_source bleu_ref : pyval) :
  has_value fv "bleu_source" bleu_source → has_value fv "bleu_ref" bleu_ref →
  verify bleu_files_validator fv =
    if Bool.eqb (is_None bleu_source) (is_None bleu_ref) then Ok tt
    else Raise (ValidationError (message bleu_files_validator)).
Proof.
  intros Hs Hr. unfold verify. simpl flag_names.
  rewrite (input_to_checker_2 _ _ _ _ _ Hs Hr), result_bind_Ok.
  unfold check_param. by rewrite bleu_files_on_values, result_bind_Ok.
Qed.

Lemma verify_bleu_vocab_file (fv : FlagValues) (bleu_source bleu_ref vocab_file : pyval) :
  has_value fv "bleu_source" bleu_source → has_value fv "bleu_ref" bleu_ref →
  has_value fv "vocab_file" vocab_file →
  verify bleu_vocab_file_validator fv =
    if (if truthy bleu_source && truthy bleu_ref
        then negb (is_None vocab_file) else true)
    then Ok tt
    else Raise (ValidationError (message bleu_vocab_file_validator)).
Proof.
  intros Hs Hr Hv. unfold verify. simpl flag_names.
  rewrite (input_to_checker_3 _ _ _ _ _ _ _ Hs Hr Hv), result_bind_Ok.
  unfold check_param. by rewrite bleu_vocab_file_on_values, result_bind_Ok.
Qed.

Lemma verify_export_vocab_file (fv : FlagValues) (export_dir vocab_file : pyval) :
  has_value fv "export_dir" export_dir → has_value fv "vocab_file" vocab_file →
  verify export_vocab_file_validator fv =
    if (if truthy export_dir then negb (is_None vocab_file) else true)
    then Ok tt
    else Raise (ValidationError (message export_vocab_file_validator)).
Proof.
  intros He Hv. unfold verify. simpl flag_names.
  rewrite (input_to_checker_2 _ _ _ _ _ He Hv), result_bind_Ok.
  unfold check_param. by rewrite export_vocab_file_on_values, result_bind_Ok.
Qed.

Lemma truthy_PyStr (s : string) : truthy (PyStr s) = false ↔ s = "".
Proof. simpl. by rewrite negb_false_iff, bool_decide_eq_true. Qed.

Section flags_more.
Variable define_base : M FlagValues unit.
Variable define_performance : list (string * bool) → M FlagValues unit.
Variable define_benchmark : M FlagValues unit.
Variable define_device : list (string * bool) → M FlagValues unit.
Variable require_cloud_storage : list string → M FlagValues unit.
Variable BooleanParser_parse : string → result pyval.
Variable IntegerParser_parse : string → result pyval.
Variable model_params : model_params_module.

Variables fv0 fv1 : FlagValues.

Hypothesis Hready :
  shared_flags_ready define_base define_performance define_benchmark
    define_device require_cloud_storage fv0 fv1.

(** X5: [define_transformer_flags] touches nothing else. A name that is
    none of the names and short names it declares keeps its meaning as a
    short name, and, unless it is one of the four shared flags that get a
    new default, its flag. Those four keep name, short name and parser:
    only the default changes, and the value with it while no value was
    given. *)
Theorem define_transformer_flags_frame :
  ∃ fv,
    define_transformer_flags define_base define_performance define_benchmark
      define_device require_cloud_storage model_params fv0 = (Ok tt, fv) ∧
    (∀ n, n ∉ transformer_flag_names →
       short_names fv !! n = short_names fv1 !! n ∧
       (n ∉ ["data_dir"; "model_dir"; "batch_size"; "train_epochs"] →
        flags fv !! n = flags fv1 !! n)) ∧
    (∀ k v f, (k, v) ∈ transformer_defaults → flags fv1 !! k = Some f →
       flags fv !! k =
         Some {| flag_name := flag_name f;
                 flag_short_name := flag_short_name f;
                 flag_parser := flag_parser f;
                 flag_default := v;
                 flag_value := if flag_using_default_value f then v else flag_value f;
                 flag_using_default_value := flag_using_default_value f |}).
Proof.
  destruct (define_transformer_flags_run define_base define_performance
              define_benchmark define_device require_cloud_storage model_params
              fv0 fv1 Hready) as (fv & vs & Hrun & Hfl & Hsn & _).
  exists fv. split; [done|]. rewrite Hfl, Hsn. split.
  - intros n Hn. split.
    + by apply with_transformer_flags_short_other.
    + intros Hd. by apply with_transformer_flags_other.
  - intros k v f Hk Hf. by apply with_transformer_flags_shared.
Qed.

(** X6: the four validators are in force. They are registered in the
    order of the source, between the validators of the shared flags and
    those of [require_cloud_storage]; so on any registry with these
    validators, validation passes only if each of the four accepts. *)
Theorem define_transformer_flags_enforces :
  ∃ fv (vs : list MultiFlagsValidator),
    define_transformer_flags define_base define_performance define_benchmark
      define_device require_cloud_storage model_params fv0 = (Ok tt, fv) ∧
    validators fv =
      (validators fv1 ++
         [ train_limits_validator; bleu_files_validator;
           bleu_vocab_file_validator; export_vocab_file_validator ] ++ vs)%list ∧
    ∀ fv', validators fv' = validators fv →
      validate_all_flags fv' = Ok tt →
      verify train_limits_validator fv' = Ok tt ∧
      verify bleu_files_validator fv' = Ok tt ∧
      verify bleu_vocab_file_validator fv' = Ok tt ∧
      verify export_vocab_file_validator fv' = Ok tt.
Proof.
  destruct (define_transformer_flags_run define_base define_performance
              define_benchmark define_device require_cloud_storage model_params
              fv0 fv1 Hready) as (fv & vs & Hrun & _ & _ & Hvs).
  exists fv, vs. split; [done|]. split; [done|].
  intros fv' Heq Hall. unfold validate_all_flags in Hall.
  rewrite Heq, Hvs in Hall. apply verify_all_Forall in Hall.
  apply Forall_app in Hall as [_ Hall]. apply Forall_app in Hall as [Hall _].
  apply Forall_cons in Hall as [H1 Hall]. apply Forall_cons in Hall as [H2 Hall].
  apply Forall_cons in Hall as [H3 Hall]. apply Forall_cons in Hall as [H4 _].
  done.
Qed.

(** X7: a short alias is another name of its flag. After
    [define_transformer_flags], for each flag of the interface table with
    an alias, an argument given under the alias is handled as the same
    argument given under the full name: the same registry, or the same
    error. *)
Theorem define_transformer_flags_aliases :
  ∃ fv,
    define_transformer_flags define_base define_performance define_benchmark
      define_device require_cloud_storage model_params fv0 = (Ok tt, fv) ∧
    Forall (λ row, ∀ s, row.1.1.2 = Some s → ∀ argument,
              parse_argument BooleanParser_parse IntegerParser_parse s argument fv =
              parse_argument BooleanParser_parse IntegerParser_parse row.1.1.1 argument fv)
      interface_table.
Proof.
  destruct (define_transformer_flags_run define_base define_performance
              define_benchmark define_device require_cloud_storage model_params
              fv0 fv1 Hready) as (fv & vs & Hrun & Hfl & Hsn & _).
  pose proof Hready as (_ & _ & Hfree & _). rewrite Forall_forall in Hfree.
  exists fv. split; [done|].
  rewrite interface_table_decls, Forall_fmap. apply Forall_forall.
  intros d Hd s Hs argument. simpl in Hs |- *.
  destruct (with_transformer_flags_declared_as fv1 d Hd)
    as (f & Hf & _ & _ & _ & _ & _ & Hshort).
  assert (Hin : s ∈ transformer_flag_names).
  { rewrite <- transformer_decls_names. unfold all_names.
    apply list_elem_of_bind. exists d. split; [|done].
    unfold decl_names. rewrite Hs. repeat constructor. }
  assert (Hnone : flags fv !! s = None).
  { destruct (alias_not_a_name d s Hd Hs) as [Hname Hdef].
    rewrite Hfl. unfold with_transformer_flags.
    rewrite flags_apply_defaults_notin, flags_add_flags_notin by done.
    by apply declared_false, Hfree. }
  eapply parse_argument_alias; [done| |].
  - rewrite Hsn. by apply Hshort.
  - by rewrite Hfl.
Qed.

(** X8: the defaults are a valid configuration. With no argument given
    (train_epochs still at its default), the registry that
    [define_transformer_flags] leaves passes the train-mode check, because
    the new default of train_epochs is 10, and both BLEU checks; the
    export-vocab check passes exactly when export_dir, a shared flag, is
    unset or empty, since vocab_file is unset. *)
Theorem defaults_pass_validation :
  (∃ f, flags fv1 !! "train_epochs" = Some f ∧ flag_using_default_value f = true) →
  ∃ fv,
    define_transformer_flags define_base define_performance define_benchmark
      define_device require_cloud_storage model_params fv0 = (Ok tt, fv) ∧
    has_value fv "mode" (PyStr "train") ∧
    has_value fv "train_epochs" (PyInt 10) ∧
    verify train_limits_validator fv = Ok tt ∧
    verify bleu_files_validator fv = Ok tt ∧
    verify bleu_vocab_file_validator fv = Ok tt ∧
    ∀ export_dir, has_value fv "export_dir" export_dir →
      (verify export_vocab_file_validator fv = Ok tt ↔ truthy export_dir = false).
Proof.
  intros (fe & Hfe & Hdefault).
  destruct (define_transformer_flags_run define_base define_performance
              define_benchmark define_device require_cloud_storage model_params
              fv0 fv1 Hready) as (fv & vs & Hrun & Hfl & _).
  assert (Hdecl : ∀ d, d ∈ transformer_decls ["tiny"; "base"; "big"] →
            has_value fv (decl_name d) d.1.2).
  { intros d Hd.
    destruct (with_transformer_flags_declared_as fv1 d Hd)
      as (f & Hf & _ & _ & _ & _ & Hvalue & _).
    rewrite <- Hvalue. apply has_value_flags. by rewrite Hfl. }
  assert (Hmode : has_value fv "mode" (PyStr "train")).
  { apply (Hdecl (ArgumentParser, "mode", PyStr "train", None)). solve_closed. }
  assert (Hsrc : has_value fv "bleu_source" PyNone).
  { apply (Hdecl (ArgumentParser, "bleu_source", PyNone, Some "bls")). solve_closed. }
  assert (Href : has_value fv "bleu_ref" PyNone).
  { apply (Hdecl (ArgumentParser, "bleu_ref", PyNone, Some "blr")). solve_closed. }
  assert (Hvf : has_value fv "vocab_file" PyNone).
  { apply (Hdecl (ArgumentParser, "vocab_file", PyNone, Some "vf")). solve_closed. }
  assert (Hte : has_value fv "train_epochs" (PyInt 10)).
  { pose proof (with_transformer_flags_shared fv1 "train_epochs" (PyInt 10) fe) as Hw.
    rewrite <- Hfl in Hw. apply has_value_flags in Hw; [|solve_closed|done].
    simpl in Hw. by rewrite Hdefault in Hw. }
  exists fv. split; [done|]. split; [done|]. split; [done|].
  split.
  { by apply (verify_train_limits fv (PyStr "train") (PyInt 10)). }
  split.
  { by rewrite (verify_bleu_files fv PyNone PyNone). }
  split.
  { by rewrite (verify_bleu_vocab_file fv PyNone PyNone PyNone). }
  intros export_dir He. rewrite (verify_export_vocab_file fv export_dir PyNone) by done.
  simpl. by destruct (truthy export_dir).
Qed.

(** X9: the BLEU arguments, one after the other. After
    [define_transformer_flags], giving bleu_source alone, whatever the
    argument, makes the BLEU-files check fail with its message. Giving
    bleu_ref as well satisfies that check; the BLEU-vocab check then passes
    exactly when one of the two arguments is empty. Giving vocab_file too,
    whatever the argument, satisfies both. *)
Theorem bleu_arguments_in_turn (bleu_source bleu_ref vocab_file : string) :
  ∃ fv fv_a fv_b fv_c,
    define_transformer_flags define_base define_performance define_benchmark
      define_device require_cloud_storage model_params fv0 = (Ok tt, fv) ∧
    parse_argument BooleanParser_parse IntegerParser_parse
      "bleu_source" bleu_source fv = (Ok tt, fv_a) ∧
    verify bleu_files_validator fv_a =
      Raise (ValidationError
               "Both or neither --bleu_source and --bleu_ref must be defined.") ∧
    parse_argument BooleanParser_parse IntegerParser_parse
      "bleu_ref" bleu_ref fv_a = (Ok tt, fv_b) ∧
    verify bleu_files_validator fv_b = Ok tt ∧
    (verify bleu_vocab_file_validator fv_b = Ok tt ↔
       bleu_source = "" ∨ bleu_ref = "") ∧
    parse_argument BooleanParser_parse IntegerParser_parse
      "vocab_file" vocab_file fv_b = (Ok tt, fv_c) ∧
    verify bleu_files_validator fv_c = Ok tt ∧
    verify bleu_vocab_file_validator fv_c = Ok tt.
Proof.
  destruct (define_transformer_flags_run define_base define_performance
              define_benchmark define_device require_cloud_storage model_params
              fv0 fv1 Hready) as (fv & vs & Hrun & Hfl & _).
  assert (Hdecl : ∀ d, d ∈ transformer_decls ["tiny"; "base"; "big"] →
            ∃ f, flags fv !! decl_name d = Some f ∧ flag_name f = decl_name d ∧
                 flag_parser f = d.1.1.1 ∧ flag_value f = d.1.2).
  { intros d Hd.
    destruct (with_transformer_flags_declared_as fv1 d Hd)
      as (f & Hf & Hname & _ & Hparser & _ & Hvalue & _).
    exists f. by rewrite Hfl. }
  destruct (Hdecl (ArgumentParser, "bleu_source", PyNone, Some "bls"))
    as (fs & Hfs & Hfs_name & Hfs_parser & _); [solve_closed|].
  destruct (Hdecl (ArgumentParser, "bleu_ref", PyNone, Some "blr"))
    as (fr & Hfr & Hfr_name & Hfr_parser & Hfr_value); [solve_closed|].
  destruct (Hdecl (ArgumentParser, "vocab_file", PyNone, Some "vf"))
    as (fvf & Hfvf & Hfvf_name & Hfvf_parser & Hfvf_value); [solve_closed|].
  change (flags fv !! "bleu_source" = Some fs) in Hfs.
  change (flags fv !! "bleu_ref" = Some fr) in Hfr.
  change (flags fv !! "vocab_file" = Some fvf) in Hfvf.
  simpl in Hfs_name, Hfs_parser, Hfr_name, Hfr_parser, Hfr_value,
    Hfvf_name, Hfvf_parser, Hfvf_value.
  (* --bleu_source *)
  destruct (parse_argument_string BooleanParser_parse IntegerParser_parse
              fv "bleu_source" bleu_source fs Hfs Hfs_name Hfs_parser)
    as (fv_a & fs' & Hpa & Hfla & _ & _ & _ & _ & Hva).
  destruct (has_value_insert fv fv_a _ _ Hfla) as [Hsrc_a Hkeep_a].
  rewrite Hva in Hsrc_a.
  pose proof (Hkeep_a "bleu_ref" fr ltac:(done) Hfr) as Hfr_a.
  pose proof (Hkeep_a "vocab_file" fvf ltac:(done) Hfvf) as Hfvf_a.
  (* --bleu_ref *)
  destruct (parse_argument_string BooleanParser_parse IntegerParser_parse
              fv_a "bleu_ref" bleu_ref fr Hfr_a Hfr_name Hfr_parser)
    as (fv_b & fr' & Hpb & Hflb & _ & _ & _ & _ & Hvb).
  destruct (has_value_insert fv_a fv_b _ _ Hflb) as [Href_b Hkeep_b].
  rewrite Hvb in Href_b.
  assert (Hsrc_b : has_value fv_b "bleu_source" (PyStr bleu_source)).
  { destruct Hsrc_a as (f & Hl & Hv). unfold lookup_flag in Hl.
    destruct (flags fv_a !! "bleu_source") as [f0|] eqn:Hf0.
    - injection Hl as ->. rewrite <- Hv. apply has_value_flags.
      by apply Hkeep_b.
    - by rewrite Hfla, lookup_insert_eq in Hf0. }
  pose proof (Hkeep_b "vocab_file" fvf ltac:(done) Hfvf_a) as Hfvf_b.
  (* --vocab_file *)
  destruct (parse_argument_string BooleanParser_parse IntegerParser_parse
              fv_b "vocab_file" vocab_file fvf Hfvf_b Hfvf_name Hfvf_parser)
    as (fv_c & fvf' & Hpc & Hflc & _ & _ & _ & _ & Hvc).
  destruct (has_value_insert fv_b fv_c _ _ Hflc) as [Hvf_c Hkeep_c].
  rewrite Hvc in Hvf_c.
  assert (Hcarry : ∀ n v, n ≠ "vocab_file" → flags fv_b !! n ≠ None →
            has_value fv_b n v → has_value fv_c n v).
  { intros n v Hn Hsome (f & Hl & Hv). unfold lookup_flag in Hl.
    destruct (flags fv_b !! n) as [f0|] eqn:Hf0; [|done].
    injection Hl as ->. rewrite <- Hv. apply has_value_flags. by apply Hkeep_c. }
  assert (Hsrc_c : has_value fv_c "bleu_source" (PyStr bleu_source)).
  { apply Hcarry; [done| |done].
    rewrite Hflb, lookup_insert_ne, Hfla, lookup_insert_eq by done. done. }
  assert (Href_c : has_value fv_c "bleu_ref" (PyStr bleu_ref)).
  { apply Hcarry; [done| |done]. by rewrite Hflb, lookup_insert_eq. }
  exists fv, fv_a, fv_b, fv_c.
  split; [done|]. split; [done|].
  split.
  { rewrite (verify_bleu_files fv_a (PyStr bleu_source) PyNone); [done|done|].
    rewrite <- Hfr_value. by apply has_value_flags. }
  split; [done|].
  split.
  { by rewrite (verify_bleu_files fv_b (PyStr bleu_source) (PyStr bleu_ref)). }
  split.
  { rewrite (verify_bleu_vocab_file fv_b (PyStr bleu_source) (PyStr bleu_ref) PyNone);
      [|done|done|rewrite <- Hfvf_value; by apply has_value_flags].
    rewrite <- !truthy_PyStr.
    destruct (truthy (PyStr bleu_source)), (truthy (PyStr bleu_ref)); simpl;
      intuition congruence. }
  split; [done|].
  split.
  { by rewrite (verify_bleu_files fv_c (PyStr bleu_source) (PyStr bleu_ref)). }
  rewrite (verify_bleu_vocab_file fv_c (PyStr bleu_source) (PyStr bleu_ref)
             (PyStr vocab_file)) by done.
  by destruct (truthy (PyStr bleu_source) && truthy (PyStr bleu_ref)).
Qed.

End flags_more.

(** ** A name that is already taken *)





Section flags_clash.
Variable define_base : M FlagValues unit.
Variable define_performance : list (string * bool) → M FlagValues unit.
Variable define_benchmark : M FlagValues unit.
Variable define_device : list (string * bool) → M FlagValues unit.
Variable require_cloud_storage : list string → M FlagValues unit.
Variable model_params : model_params_module.

Variables fv0 fv1 : FlagValues.

(** The shared definitions run through and leave the registry [fv1]. *)
Hypothesis Hshared :
  ∃ fva fvb fvc,
    define_base fv0 = (Ok tt, fva) ∧
    define_performance
      [ ("num_parallel_calls", true); ("inter_op", false); ("intra_op", false);
        ("synthetic_data", true); ("max_train_steps", false); ("dtype", false);
        ("all_reduce_alg", true) ] fva = (Ok tt, fvb) ∧
    define_benchmark fvb = (Ok tt, fvc) ∧
    define_device [ ("tpu", true) ] fvc = (Ok tt, fv1).


End flags_clash.

(** ** The further statements on the sample registry *)

(** X5 on the sample registry. *)
Lemma define_transformer_flags_frame_witness :
  ∃ fv,
    define_transformer_flags sample_define_base sample_define_performance
      sample_define_benchmark sample_define_device sample_require_cloud_storage
      sample_model_params empty_registry = (Ok tt, fv) ∧
    (∀ n, n ∉ transformer_flag_names →
       short_names fv !! n = short_names sample_shared_registry !! n ∧
       (n ∉ ["data_dir"; "model_dir"; "batch_size"; "train_epochs"] →
        flags fv !! n = flags sample_shared_registry !! n)) ∧
    (∀ k v f, (k, v) ∈ transformer_defaults →
       flags sample_shared_registry !! k = Some f →
       flags fv !! k =
         Some {| flag_name := flag_name f;
                 flag_short_name := flag_short_name f;
                 flag_parser := flag_parser f;
                 flag_default := v;
                 flag_value := if flag_using_default_value f then v else flag_value f;
                 flag_using_default_value := flag_using_default_value f |}).
Proof.
  exact (define_transformer_flags_frame _ _ _ _ _ sample_model_params _ _
           sample_shared_flags_ready).
Defined.

(** X6 on the sample registry. *)
Lemma define_transformer_flags_enforces_witness :
  ∃ fv (vs : list MultiFlagsValidator),
    define_transformer_flags sample_define_base sample_define_performance
      sample_define_benchmark sample_define_device sample_require_cloud_storage
      sample_model_params empty_registry = (Ok tt, fv) ∧
    validators fv =
      (validators sample_shared_registry ++
         [ train_limits_validator; bleu_files_validator;
           bleu_vocab_file_validator; export_vocab_file_validator ] ++ vs)%list ∧
    ∀ fv', validators fv' = validators fv →
      validate_all_flags fv' = Ok tt →
      verify train_limits_validator fv' = Ok tt ∧
      verify bleu_files_validator fv' = Ok tt ∧
      verify bleu_vocab_file_validator fv' = Ok tt ∧
      verify export_vocab_file_validator fv' = Ok tt.
Proof.
  exact (define_transformer_flags_enforces _ _ _ _ _ sample_model_params _ _
           sample_shared_flags_ready).
Defined.

(** X7 on the sample registry. *)
Lemma define_transformer_flags_aliases_witness :
  ∃ fv,
    define_transformer_flags sample_define_base sample_define_performance
      sample_define_benchmark sample_define_device sample_require_cloud_storage
      sample_model_params empty_registry = (Ok tt, fv) ∧
    Forall (λ row, ∀ s, row.1.1.2 = Some s → ∀ argument,
              parse_argument sample_BooleanParser_parse sample_IntegerParser_parse
                s argument fv =
              parse_argument sample_BooleanParser_parse sample_IntegerParser_parse
                row.1.1.1 argument fv)
      interface_table.
Proof.
  exact (define_transformer_flags_aliases _ _ _ _ _
           sample_BooleanParser_parse sample_IntegerParser_parse
           sample_model_params _ _ sample_shared_flags_ready).
Defined.

Lemma sample_train_epochs_default :
  ∃ f, flags sample_shared_registry !! "train_epochs" = Some f ∧
       flag_using_default_value f = true.
Proof. eexists. split; [vm_compute; reflexivity|reflexivity]. Qed.

(** X8 on the sample registry. *)
Lemma defaults_pass_validation_witness :
  ∃ fv,
    define_transformer_flags sample_define_base sample_define_performance
      sample_define_benchmark sample_define_device sample_require_cloud_storage
      sample_model_params empty_registry = (Ok tt, fv) ∧
    has_value fv "mode" (PyStr "train") ∧
    has_value fv "train_epochs" (PyInt 10) ∧
    verify train_limits_validator fv = Ok tt ∧
    verify bleu_files_validator fv = Ok tt ∧
    verify bleu_vocab_file_validator fv = Ok tt ∧
    ∀ export_dir, has_value fv "export_dir" export_dir →
      (verify export_vocab_file_validator fv = Ok tt ↔ truthy export_dir = false).
Proof.
  exact (defaults_pass_validation _ _ _ _ _ sample_model_params _ _
           sample_shared_flags_ready sample_train_epochs_default).
Defined.

(** X9 on the sample registry: a source with an empty reference. *)
Lemma bleu_arguments_in_turn_witness :
  ∃ fv fv_a fv_b fv_c,
    define_transformer_flags sample_define_base sample_define_performance
      sample_define_benchmark sample_define_device sample_require_cloud_storage
      sample_model_params empty_registry = (Ok tt, fv) ∧
    parse_argument sample_BooleanParser_parse sample_IntegerParser_parse
      "bleu_source" "newstest2014.en" fv = (Ok tt, fv_a) ∧
    verify bleu_files_validator fv_a =
      Raise (ValidationError
               "Both or neither --bleu_source and --bleu_ref must be defined.") ∧
    parse_argument sample_BooleanParser_parse sample_IntegerParser_parse
      "bleu_ref" "" fv_a = (Ok tt, fv_b) ∧
    verify bleu_files_validator fv_b = Ok tt ∧
    (verify bleu_vocab_file_validator fv_b = Ok tt ↔
       "newstest2014.en" = "" ∨ "" = "") ∧
    parse_argument sample_BooleanParser_parse sample_IntegerParser_parse
      "vocab_file" "vocab.ende" fv_b = (Ok tt, fv_c) ∧
    verify bleu_files_validator fv_c = Ok tt ∧
    verify bleu_vocab_file_validator fv_c = Ok tt.
Proof.
  exact (bleu_arguments_in_turn _ _ _ _ _
           sample_BooleanParser_parse sample_IntegerParser_parse
           sample_model_params _ _ sample_shared_flags_ready
           "newstest2014.en" "" "vocab.ende").
Defined.


